(** * ios-simulator-mcp: session lifecycle and coordinate transform

    A shallow embedding of [src/index.ts]: the orientation-aware frame
    transform, the element-tree rewrite, the provisioner look-ups, and the
    session lifecycle handlers working on the [managedSimulators] map.

    Conventions of the embedding.
    - A JS [number] is an IEEE 754 double.  [Binary64] embeds the frame
      transform over doubles, with the rounding of every subtraction.  The
      numbers of the element tree are integers ([Z]), the doubles on
      which the transform is exact ([transformFrame_scaled] is the link).
    - A JS string is a [string] holding its UTF-8 bytes; a JS [Map] is an
      association list kept in insertion order (the order [for ... of]
      iterates in).
    - An [await run(cmd, args)] is a call to the outside world: it is
      logged, and the world decides whether it resolves or rejects. *)

From Stdlib Require Import ZArith List String Ascii Bool Lia DecimalString.
From Stdlib Require Import SpecFloat.
Import ListNotations.
Open Scope string_scope.
Open Scope Z_scope.

(* ===================================================================== *)
(** * Coordinate transformation                                            *)
(* ===================================================================== *)

(** [type Orientation = "auto" | "portrait" | "landscape_right"
                      | "upside_down" | "landscape_left"] *)
Inductive Orientation : Type :=
| auto
| portrait
| landscape_right
| upside_down
| landscape_left.

(** [interface Frame { x; y; width; height }] for numbers that are
    integers: whole points in the element tree.  [scaled] reads the four
    integers as numerators at a scale [2^e] ([e = -1] for half points) and
    relates them to the frames of doubles, [Binary64.Frame]. *)
Record Frame : Type := mkFrame {
  x : Z;
  y : Z;
  width : Z;
  height : Z
}.

(** [getEffectiveOrientation]: "auto" detects portrait (w <= h) against
    landscape_right (w > h); every other setting is used verbatim. *)
Definition getEffectiveOrientation
    (orientation : Orientation) (screenWidth screenHeight : Z) : Orientation :=
  match orientation with
  | auto => if screenHeight <? screenWidth then landscape_right else portrait
  | o => o
  end.

(** [transformFrame]: from the rotated logical space to portrait space. *)
Definition transformFrame
    (frame : Frame) (orientation : Orientation) (screenW screenH : Z) : Frame :=
  match orientation with
  | portrait | auto => frame
  | landscape_right =>
      {| x := y frame;
         y := screenW - x frame - width frame;
         width := height frame;
         height := width frame |}
  | landscape_left =>
      {| x := screenH - y frame - height frame;
         y := x frame;
         width := height frame;
         height := width frame |}
  | upside_down =>
      {| x := screenW - x frame - width frame;
         y := screenH - y frame - height frame;
         width := width frame;
         height := height frame |}
  end.

(** The orientation whose transform undoes the transform of [o]. *)
Definition inverseOrientation (o : Orientation) : Orientation :=
  match o with
  | landscape_right => landscape_left
  | landscape_left => landscape_right
  | o' => o'
  end.

(** Dimensions of the screen as seen in the frame a transform produces:
    the two landscape transforms exchange width and height. *)
Definition transformedScreen (o : Orientation) (screenW screenH : Z) : Z * Z :=
  match o with
  | landscape_right | landscape_left => (screenH, screenW)
  | _ => (screenW, screenH)
  end.

Definition area (f : Frame) : Z := width f * height f.

(** Decimal rendering of a number inside a template literal, for the
    integers JS prints digit by digit: those below [10^21] in magnitude
    (from there on JS switches to exponent notation). *)
Definition showZ (n : Z) : string := NilZero.string_of_int (Z.to_int n).

Definition showNat (n : nat) : string := NilZero.string_of_uint (Nat.to_uint n).

(** [formatAXFrame]: the literal "{{x, y}, {width, height}}", for a frame
    of whole points. *)
Definition formatAXFrame (frame : Frame) : string :=
  "{{" ++ showZ (x frame) ++ ", " ++ showZ (y frame) ++ "}, {"
       ++ showZ (width frame) ++ ", " ++ showZ (height frame) ++ "}}".

(* ===================================================================== *)
(** * The transform over IEEE 754 doubles                                  *)
(* ===================================================================== *)

(** The numbers of the source are binary64 values and [-] rounds to
    nearest, ties to even.  The format and its operations are those of the
    Standard Library's executable specification, [SpecFloat]. *)
Module Binary64.

Definition number : Type := spec_float.

Definition prec : Z := 53.
Definition emax : Z := 1024.

(** [a - b] *)
Definition sub (a b : number) : number := SFsub prec emax a b.

(** [a / b] *)
Definition div (a b : number) : number := SFdiv prec emax a b.

(** The double nearest to [m * 2^e]. *)
Definition dyadic (m e : Z) : number := binary_normalize prec emax m e false.

(** The double nearest to the integer [n]. *)
Definition ofZ (n : Z) : number := dyadic n 0.

(** [interface Frame { x; y; width; height }] *)
Record Frame : Type := mkFrame {
  x : number;
  y : number;
  width : number;
  height : number
}.

(** [transformFrame]; [a - b - c] is [(a - b) - c]. *)
Definition transformFrame
    (frame : Frame) (orientation : Orientation) (screenW screenH : number)
    : Frame :=
  match orientation with
  | portrait | auto => frame
  | landscape_right =>
      {| x := y frame;
         y := sub (sub screenW (x frame)) (width frame);
         width := height frame;
         height := width frame |}
  | landscape_left =>
      {| x := sub (sub screenH (y frame)) (height frame);
         y := x frame;
         width := height frame;
         height := width frame |}
  | upside_down =>
      {| x := sub (sub screenW (x frame)) (width frame);
         y := sub (sub screenH (y frame)) (height frame);
         width := width frame;
         height := height frame |}
  end.

End Binary64.

(** The frame of doubles with numerators [r] at scale [2^e]. *)
Definition scaled (e : Z) (r : Frame) : Binary64.Frame :=
  {| Binary64.x := Binary64.dyadic (x r) e;
     Binary64.y := Binary64.dyadic (y r) e;
     Binary64.width := Binary64.dyadic (width r) e;
     Binary64.height := Binary64.dyadic (height r) e |}.

(** Exponents at which every numerator below [2^53] is a normal double. *)
Definition scaleInRange (e : Z) : Prop := -1022 <= e <= 971.

(** Numerators small enough for every subtraction of the transform, and
    of the transform that undoes it, to be exact. *)
Definition numeratorsInRange (r : Frame) (screenW screenH : Z) : Prop :=
  Z.abs (x r) < 2 ^ 51 /\ Z.abs (y r) < 2 ^ 51
  /\ Z.abs (width r) < 2 ^ 51 /\ Z.abs (height r) < 2 ^ 51
  /\ Z.abs screenW < 2 ^ 51 /\ Z.abs screenH < 2 ^ 51.

(** A frame with thirds of a point:
    [{x: 16.5, y: 179/3, width: 361, height: 61/3}], that is
    [y = 59.666666666666664] and [height = 20.333333333333332]. *)
Definition thirdsFrame : Binary64.Frame :=
  {| Binary64.x := Binary64.dyadic 33 (-1);
     Binary64.y := Binary64.div (Binary64.ofZ 179) (Binary64.ofZ 3);
     Binary64.width := Binary64.ofZ 361;
     Binary64.height := Binary64.div (Binary64.ofZ 61) (Binary64.ofZ 3) |}.

(** Numerators on which the subtractions of one transform are exact: the
    operands and the results stay below [2^53] in magnitude. *)
Definition exactOn (r : Frame) (screenW screenH : Z) : Prop :=
  Z.abs (x r) < 2 ^ 53 /\ Z.abs (width r) < 2 ^ 53 /\ Z.abs screenW < 2 ^ 53
  /\ Z.abs (screenW - x r) < 2 ^ 53
  /\ Z.abs (screenW - x r - width r) < 2 ^ 53
  /\ Z.abs (y r) < 2 ^ 53 /\ Z.abs (height r) < 2 ^ 53 /\ Z.abs screenH < 2 ^ 53
  /\ Z.abs (screenH - y r) < 2 ^ 53
  /\ Z.abs (screenH - y r - height r) < 2 ^ 53.

(** [p * 2^n] on mantissas. *)
Definition shiftPos (p : positive) (n : nat) : positive := Nat.iter n xO p.

(* ===================================================================== *)
(** * JSON values and objects                                              *)
(* ===================================================================== *)

(** What [JSON.parse] produces, for a document whose numbers are
    integers.  An object is the list of its own properties in property
    order. *)
#[local] Unset Elimination Schemes.
Inductive JSValue : Type :=
| JNull
| JBool (b : bool)
| JNum (n : Z)
| JStr (s : string)
| JArr (items : list JSValue)
| JObj (props : list (string * JSValue)).
#[local] Set Elimination Schemes.

Definition Props : Type := list (string * JSValue).

(** Property read on an object: [None] is [undefined]. *)
Fixpoint getProp (k : string) (ps : Props) : option JSValue :=
  match ps with
  | [] => None
  | (k', v) :: rest => if String.eqb k k' then Some v else getProp k rest
  end.

(** Property write: an existing property keeps its place, a new one goes
    last. *)
Fixpoint setProp (k : string) (v : JSValue) (ps : Props) : Props :=
  match ps with
  | [] => [(k, v)]
  | (k', v') :: rest =>
      if String.eqb k k' then (k', v) :: rest else (k', v') :: setProp k v rest
  end.


(** JS truthiness of a parsed value. *)
Definition truthy (v : JSValue) : bool :=
  match v with
  | JNull => false
  | JBool b => b
  | JNum n => negb (n =? 0)
  | JStr s => negb (String.eqb s "")
  | JArr _ | JObj _ => true
  end.

Definition truthyOpt (o : option JSValue) : bool :=
  match o with Some v => truthy v | None => false end.

(** [v.k] for a value that is not null: only objects carry the named
    properties read by this program. *)
Definition member (v : JSValue) (k : string) : option JSValue :=
  match v with
  | JObj ps => getProp k ps
  | _ => None
  end.

(** Index-keyed properties, as the spread of an array or a string yields. *)
Fixpoint indexed (i : nat) (vs : list JSValue) : Props :=
  match vs with
  | [] => []
  | v :: rest => (showNat i, v) :: indexed (S i) rest
  end.

Fixpoint chars (s : string) : list JSValue :=
  match s with
  | EmptyString => []
  | String c rest => JStr (String c EmptyString) :: chars rest
  end.

(** [{ ...el }] *)
Definition spread (el : JSValue) : Props :=
  match el with
  | JObj ps => ps
  | JArr vs => indexed 0 vs
  | JStr s => indexed 0 (chars s)
  | JNull | JBool _ | JNum _ => []
  end.

(** Reading a value at the declared type [Frame]: all four members are
    numbers. *)
Definition asFrame (v : JSValue) : option Frame :=
  match member v "x", member v "y", member v "width", member v "height" with
  | Some (JNum fx), Some (JNum fy), Some (JNum fw), Some (JNum fh) =>
      Some (mkFrame fx fy fw fh)
  | _, _, _, _ => None
  end.

(** The object literal [transformFrame] returns. *)
Definition frameObject (f : Frame) : JSValue :=
  JObj [("x", JNum (x f)); ("y", JNum (y f));
        ("width", JNum (width f)); ("height", JNum (height f))].

(** [el.frame && (el.frame.width || el.frame.height)] on an object. *)
Definition hasLiveFrame (ps : Props) : bool :=
  match getProp "frame" ps with
  | Some fr => truthy fr && (truthyOpt (member fr "width")
                             || truthyOpt (member fr "height"))
  | None => false
  end.

(** [transformFrame] seen on the parsed value: "portrait" and "auto"
    return the argument itself, the other cases build a new literal. *)
Definition transformFrameValue
    (fr : JSValue) (f : Frame) (orientation : Orientation) (screenW screenH : Z)
    : JSValue :=
  match orientation with
  | portrait | auto => fr
  | _ => frameObject (transformFrame f orientation screenW screenH)
  end.

(** The first branch of the mapped function: rewrite [frame] and
    [AXFrame] of the copy.  [None]: the frame passes the test but is not a
    [Frame] (the arithmetic on non-numbers is outside the model). *)
Definition rewriteFrame
    (el : Props) (transformed : Props)
    (orientation : Orientation) (screenW screenH : Z) : option Props :=
  if hasLiveFrame el then
    match getProp "frame" el with
    | Some fr =>
        match asFrame fr with
        | Some f =>
            let f' := transformFrame f orientation screenW screenH in
            Some (setProp "AXFrame" (JStr (formatAXFrame f'))
                    (setProp "frame"
                       (transformFrameValue fr f orientation screenW screenH)
                       transformed))
        | None => None
        end
    | None => None
    end
  else Some transformed.

(** Sequencing of partial results over a list (every element must
    complete). *)
Fixpoint allSome {A : Type} (l : list (option A)) : option (list A) :=
  match l with
  | [] => Some []
  | Some a :: rest =>
      match allSome rest with Some r => Some (a :: r) | None => None end
  | None :: _ => None
  end.

(** The function mapped by [transformElementTree] over [elements].
    [None]: the call does not complete inside the model, either because
    [el.frame] throws on [null] or because of an ill-typed frame. *)
Fixpoint transformElement
    (orientation : Orientation) (screenW screenH : Z) (el : JSValue)
    : option JSValue :=
  match el with
  | JNull => None
  | JObj ps =>
      match rewriteFrame ps ps orientation screenW screenH with
      | None => None
      | Some transformed =>
          (* el.children && Array.isArray(el.children) *)
          let kids :=
            (fix find (l : Props) : option (option (list JSValue)) :=
               match l with
               | [] => None
               | (k, v) :: rest =>
                   if String.eqb "children" k then
                     match v with
                     | JArr cs =>
                         Some (allSome
                                 (map (transformElement orientation
                                         screenW screenH) cs))
                     | _ => None
                     end
                   else find rest
               end) ps in
          match kids with
          | None => Some (JObj transformed)
          | Some None => None
          | Some (Some cs') =>
              Some (JObj (setProp "children" (JArr cs') transformed))
          end
      end
  | other => Some (JObj (spread other))
  end.

(** [transformElementTree(elements, orientation, screenW, screenH)] *)
Definition transformElementTree
    (elements : list JSValue) (orientation : Orientation) (screenW screenH : Z)
    : option (list JSValue) :=
  allSome (map (transformElement orientation screenW screenH) elements).

(** ** Trees inside the typed fragment *)




(** What the specification allows between a node and its image: only
    [frame] and [AXFrame] differ, and only for a frame with a nonzero width
    or height; children are related pairwise, in order. *)
#[local] Unset Elimination Schemes.
#[local] Set Elimination Schemes.

(* ===================================================================== *)
(** * Strings                                                              *)
(* ===================================================================== *)

(** A [string] holds the UTF-8 bytes of the JS string.  Searching,
    prefixes and concatenation are the same on bytes as on characters.
    Case folding and the class [\s] are embedded for the ASCII characters
    ([asciiOnly] strings, where they are all of [toLowerCase] and [\s]);
    the length counts UTF-16 code units as [.length] does. *)

(** Every character is ASCII: every byte is below 128. *)
Definition asciiOnly (s : string) : bool :=
  forallb (fun c => (nat_of_ascii c <? 128)%nat) (list_ascii_of_string s).

(** The UTF-16 code units of the character a byte starts: none for a
    continuation byte [10xxxxxx], two for the first byte [11110xxx] of a
    character outside the basic plane, one for every other byte. *)
Definition codeUnits (c : ascii) : nat :=
  let n := nat_of_ascii c in
  if (n <? 128)%nat then 1%nat
  else if (n <? 192)%nat then 0%nat
  else if (n <? 240)%nat then 1%nat
  else 2%nat.

(** [s.length] *)
Fixpoint utf16Length (s : string) : nat :=
  match s with
  | EmptyString => 0%nat
  | String c rest => (codeUnits c + utf16Length rest)%nat
  end.

(** The double quote character, for the messages that quote a name. *)
Definition dq : string := String (ascii_of_nat 34) EmptyString.

(** A line break. *)
Definition nl : string := String (ascii_of_nat 10) EmptyString.

(** [toLowerCase] of an ASCII character: only [A-Z] change. *)
Definition lowerAscii (c : ascii) : ascii :=
  let n := nat_of_ascii c in
  if ((65 <=? n) && (n <=? 90))%nat then ascii_of_nat (n + 32) else c.

(** [s.toLowerCase()] for [s] of ASCII characters. *)
Fixpoint toLowerCase (s : string) : string :=
  match s with
  | EmptyString => EmptyString
  | String c rest => String (lowerAscii c) (toLowerCase rest)
  end.

(** The ASCII characters of the class [\s]: space, tab, line feed,
    vertical tab, form feed and carriage return. *)
Definition isSpace (c : ascii) : bool :=
  let n := nat_of_ascii c in
  ((n =? 32) || ((9 <=? n) && (n <=? 13)))%nat.

(** [replace(/\s+/g, "-")] for a string of ASCII characters: every
    maximal run of white space becomes one dash.  [inRun] tells that the
    previous character was white space. *)
Fixpoint dashSpaces (inRun : bool) (s : string) : string :=
  match s with
  | EmptyString => EmptyString
  | String c rest =>
      if isSpace c
      then (if inRun then dashSpaces true rest
            else String "-" (dashSpaces true rest))
      else String c (dashSpaces false rest)
  end.

(** [hay.includes(needle)] *)
Fixpoint includes (needle hay : string) : bool :=
  prefix needle hay
  || match hay with
     | EmptyString => false
     | String _ rest => includes needle rest
     end.

(** [startsWith] *)
Definition startsWith (s p : string) : bool := prefix p s.

(** [parts.join(sep)] *)
Definition join (sep : string) (parts : list string) : string :=
  String.concat sep parts.

(** One character of [[0-9A-Fa-f]]. *)
Definition isHex (c : ascii) : bool :=
  let n := nat_of_ascii c in
  (((48 <=? n) && (n <=? 57)) || ((65 <=? n) && (n <=? 70))
   || ((97 <=? n) && (n <=? 102)))%nat.

(** [[0-9A-Fa-f]{n}] at the head of [s]: the rest of the string. *)
Fixpoint hexRun (n : nat) (s : string) : option string :=
  match n with
  | O => Some s
  | S n' =>
      match s with
      | String c rest => if isHex c then hexRun n' rest else None
      | EmptyString => None
      end
  end.

(** A literal dash at the head of [s]. *)
Definition dash (s : string) : option string :=
  match s with
  | String c rest => if Ascii.eqb c "-" then Some rest else None
  | EmptyString => None
  end.

Definition andThen {A B : Type} (o : option A) (f : A -> option B) : option B :=
  match o with Some a => f a | None => None end.

(** The pattern of the [udid] parameter of [attach_simulator]:
    [^[0-9A-Fa-f]{8}-[0-9A-Fa-f]{4}-[0-9A-Fa-f]{4}-[0-9A-Fa-f]{4}-[0-9A-Fa-f]{12}$] *)
Definition udidRegex (s : string) : bool :=
  match andThen (hexRun 8 s) (fun s1 =>
        andThen (dash s1) (fun s2 =>
        andThen (hexRun 4 s2) (fun s3 =>
        andThen (dash s3) (fun s4 =>
        andThen (hexRun 4 s4) (fun s5 =>
        andThen (dash s5) (fun s6 =>
        andThen (hexRun 4 s6) (fun s7 =>
        andThen (dash s7) (fun s8 =>
        hexRun 12 s8)))))))) with
  | Some EmptyString => true
  | _ => false
  end.

(** The canonical form in words: five groups of 8, 4, 4, 4 and 12
    hexadecimal digits, joined by dashes. *)
Definition hexString (n : nat) (s : string) : Prop :=
  String.length s = n /\
  forall c, In c (list_ascii_of_string s) -> isHex c = true.

Definition canonicalUdid (s : string) : Prop :=
  exists a b c d e,
    s = a ++ "-" ++ b ++ "-" ++ c ++ "-" ++ d ++ "-" ++ e
    /\ hexString 8 a /\ hexString 4 b /\ hexString 4 c
    /\ hexString 4 d /\ hexString 12 e.

(** [sessionIdSchema]: [z.string().max(128)], at most 128 UTF-16 code
    units. *)
Definition sessionIdSchema (id : string) : bool :=
  (utf16Length id <=? 128)%nat.

(* ===================================================================== *)
(** * The outside world                                                    *)
(* ===================================================================== *)

(** One [run(cmd, args)]. *)
Record Cmd : Type := mkCmd {
  cmd : string;
  args : list string
}.

Definition xcrun (a : list string) : Cmd := mkCmd "xcrun" a.

(** Catalog entries, at the types the program declares for them. *)
Record DeviceType : Type := mkDeviceType {
  dt_name : string;
  dt_identifier : string
}.

Record Runtime : Type := mkRuntime {
  rt_name : string;
  rt_identifier : string;
  rt_isAvailable : bool
}.

Record Device : Type := mkDevice {
  dev_udid : string;
  dev_name : string;
  dev_state : string
}.

(** What [JSON.parse(stdout)] gives, for the three listings the program
    reads; [data.devices] is kept as the list of its values, one list of
    devices per runtime. *)
Inductive Parsed : Type :=
| NotJson
| DeviceTypes (devicetypes : list DeviceType)
| Runtimes (runtimes : list Runtime)
| Devices (devices : list (list Device)).

(** A command that exits normally: its trimmed standard output and the
    reading of that output as JSON. *)
Record Output : Type := mkOutput {
  stdout : string;
  json : Parsed
}.

Inductive Outcome : Type :=
| Resolves (out : Output)
| Rejects (message : string).

(** The world answers a command knowing the commands issued before it. *)
Definition World : Type := list Cmd -> Cmd -> Outcome.

(* ===================================================================== *)
(** * The registry                                                         *)
(* ===================================================================== *)

(** The value type of [managedSimulators]. *)
Record Sim : Type := mkSim {
  udid : string;
  name : string;
  owned : bool;
  orientation : Orientation
}.

(** [Map<string, Sim>] in insertion order. *)
Definition Registry : Type := list (string * Sim).

Fixpoint mapGet (id : string) (m : Registry) : option Sim :=
  match m with
  | [] => None
  | (k, v) :: rest => if String.eqb id k then Some v else mapGet id rest
  end.

Fixpoint mapSet (id : string) (v : Sim) (m : Registry) : Registry :=
  match m with
  | [] => [(id, v)]
  | (k, v') :: rest =>
      if String.eqb id k then (k, v) :: rest else (k, v') :: mapSet id v rest
  end.

Fixpoint mapDelete (id : string) (m : Registry) : Registry :=
  match m with
  | [] => []
  | (k, v) :: rest =>
      if String.eqb id k then rest else (k, v) :: mapDelete id rest
  end.

(** Keys are unique, as in any [Map]. *)
Definition uniqueKeys (m : Registry) : Prop := NoDup (map fst m).

(** The process state the handlers share: the registry and the log of
    the commands sent to the world so far. *)
Record State : Type := mkState {
  managedSimulators : Registry;
  issued : list Cmd
}.

(* ===================================================================== *)
(** * Computations: state, world and exceptions                            *)
(* ===================================================================== *)

Inductive Except (A : Type) : Type :=
| Return (a : A)
| Throw (message : string).

Arguments Return {A} a.
Arguments Throw {A} message.

Definition M (A : Type) : Type := World -> State -> Except A * State.

Definition ret {A : Type} (a : A) : M A := fun _ st => (Return a, st).

Definition throw {A : Type} (message : string) : M A :=
  fun _ st => (Throw message, st).

Definition bind {A B : Type} (m : M A) (k : A -> M B) : M B :=
  fun w st =>
    match m w st with
    | (Return a, st') => k a w st'
    | (Throw e, st') => (Throw e, st')
    end.

(** [try { m } catch (error) { h(toError(error).message) }] *)
Definition tryCatch {A : Type} (m : M A) (h : string -> M A) : M A :=
  fun w st =>
    match m w st with
    | (Return a, st') => (Return a, st')
    | (Throw e, st') => h e w st'
    end.

Declare Scope js_scope.
Delimit Scope js_scope with js.
Notation "x <- m ;; k" := (bind m (fun x => k))
  (at level 100, m at next level, right associativity) : js_scope.
Notation "m ;;; k" := (bind m (fun _ => k))
  (at level 100, right associativity) : js_scope.
Open Scope js_scope.

(** [await run(cmd, args)]: the command is logged and the world answers. *)
Definition run (c : Cmd) : M Output :=
  fun w st =>
    let st' := mkState (managedSimulators st) (issued st ++ [c])%list in
    match w (issued st) c with
    | Resolves out => (Return out, st')
    | Rejects e => (Throw e, st')
    end.

Definition getSim (id : string) : M (option Sim) :=
  fun _ st => (Return (mapGet id (managedSimulators st)), st).

Definition setSim (id : string) (v : Sim) : M unit :=
  fun _ st =>
    (Return tt, mkState (mapSet id v (managedSimulators st)) (issued st)).

Definition deleteSim (id : string) : M unit :=
  fun _ st =>
    (Return tt, mkState (mapDelete id (managedSimulators st)) (issued st)).

Definition clearSims : M unit :=
  fun _ st => (Return tt, mkState [] (issued st)).

Definition entries : M Registry :=
  fun _ st => (Return (managedSimulators st), st).

(** The message of the error a failed [JSON.parse], or a listing of an
    unexpected shape, ends in (its wording belongs to the JS engine). *)
Definition parseError : string := "Unexpected JSON input".

(* ===================================================================== *)
(** * Provisioner                                                          *)
(* ===================================================================== *)

Definition listDeviceTypesCmd : Cmd := xcrun ["simctl"; "list"; "devicetypes"; "-j"].
Definition listRuntimesCmd : Cmd := xcrun ["simctl"; "list"; "runtimes"; "-j"].
Definition listDevicesCmd : Cmd := xcrun ["simctl"; "list"; "devices"; "-j"].
Definition createCmd (deviceName typeId runtime : string) : Cmd :=
  xcrun ["simctl"; "create"; deviceName; typeId; runtime].
Definition bootCmd (u : string) : Cmd := xcrun ["simctl"; "boot"; u].
Definition shutdownCmd (u : string) : Cmd := xcrun ["simctl"; "shutdown"; u].
Definition deleteCmd (u : string) : Cmd := xcrun ["simctl"; "delete"; u].
Definition openSimulatorCmd : Cmd := mkCmd "open" ["-a"; "Simulator.app"].

(** The filter of [findDeviceType]. *)
Definition matchesKeyword (keyword : string) (dt : DeviceType) : bool :=
  includes (toLowerCase keyword) (toLowerCase (dt_name dt)).

Definition noDeviceTypeMessage (keyword : string) (deviceTypes : list DeviceType)
    : string :=
  "No device type found matching " ++ dq ++ keyword ++ dq
  ++ ". Available types: " ++ join ", " (map dt_name deviceTypes).

(** The part of [findDeviceType] after the listing is parsed. *)
Definition pickDeviceType (keyword : string) (deviceTypes : list DeviceType)
    : Except DeviceType :=
  match filter (matchesKeyword keyword) deviceTypes with
  | [] => Throw (noDeviceTypeMessage keyword deviceTypes)
  | first :: _ => Return first
  end.

Definition lift {A : Type} (e : Except A) : M A := fun _ st => (e, st).

(** [findDeviceType(keyword)] *)
Definition findDeviceType (keyword : string) : M DeviceType :=
  out <- run listDeviceTypesCmd ;;
  match json out with
  | DeviceTypes deviceTypes => lift (pickDeviceType keyword deviceTypes)
  | _ => throw parseError
  end.

(** The filter of [findLatestRuntime]:
    [r.isAvailable && r.name.startsWith("iOS")]. *)
Definition isAvailableIOS (r : Runtime) : bool :=
  rt_isAvailable r && startsWith (rt_name r) "iOS".

Definition noRuntimeMessage : string :=
  "No available iOS runtimes found. Install one via Xcode.".

(** The part of [findLatestRuntime] after the listing is parsed:
    [iosRuntimes[iosRuntimes.length - 1].identifier]. *)
Definition pickLatestRuntime (runtimes : list Runtime) : Except string :=
  let iosRuntimes := filter isAvailableIOS runtimes in
  if (List.length iosRuntimes =? 0)%nat then Throw noRuntimeMessage
  else
    match nth_error iosRuntimes (List.length iosRuntimes - 1) with
    | Some r => Return (rt_identifier r)
    | None => Throw "Cannot read properties of undefined"
    end.

(** [findLatestRuntime()] *)
Definition findLatestRuntime : M string :=
  out <- run listRuntimesCmd ;;
  match json out with
  | Runtimes runtimes => lift (pickLatestRuntime runtimes)
  | _ => throw parseError
  end.

(* ===================================================================== *)
(** * Lifecycle handlers                                                   *)
(* ===================================================================== *)

(** The value a tool handler returns. *)
Record ToolResult : Type := mkResult {
  isError : bool;
  text : string
}.

Definition troubleshootingLink : string :=
  "[Troubleshooting Guide](https://github.com/joshuayoes/ios-simulator-mcp/blob/main/TROUBLESHOOTING.md) | [Plain Text Guide for LLMs](https://raw.githubusercontent.com/joshuayoes/ios-simulator-mcp/refs/heads/main/TROUBLESHOOTING.md)".

Definition errorWithTroubleshooting (message : string) : string :=
  message ++ nl ++ nl ++ "For help, see the " ++ troubleshootingLink.

(** A handler body wrapped in its [try]/[catch]: a thrown error becomes
    an error result whose text starts with [prefix]. *)
Definition handler (errorPrefix : string) (body : M string)
    (w : World) (st : State) : ToolResult * State :=
  match body w st with
  | (Return t, st') => (mkResult false t, st')
  | (Throw e, st') =>
      (mkResult true (errorWithTroubleshooting (errorPrefix ++ e)), st')
  end.

(** [type || "iPhone"] *)
Definition keywordOf (type : option string) : string :=
  match type with
  | Some t => if String.eqb t "" then "iPhone" else t
  | None => "iPhone"
  end.

(** [`${id}_${keyword.toLowerCase().replace(/\s+/g, "-")}`] *)
Definition deviceNameOf (id keyword : string) : string :=
  id ++ "_" ++ dashSpaces false (toLowerCase keyword).

Definition alreadyRunningMessage (id : string) (existing : Sim) : string :=
  "A simulator is already running for session " ++ dq ++ id ++ dq ++ ": "
  ++ dq ++ name existing ++ dq ++ " (" ++ udid existing
  ++ "). Call destroy_simulator first.".

Definition start_body (id : string) (type : option string) : M string :=
  existing <- getSim id ;;
  match existing with
  | Some e => throw (alreadyRunningMessage id e)
  | None =>
      let keyword := keywordOf type in
      deviceType <- findDeviceType keyword ;;
      runtime <- findLatestRuntime ;;
      let deviceName := deviceNameOf id keyword in
      created <- run (createCmd deviceName (dt_identifier deviceType) runtime) ;;
      let u := stdout created in
      run (bootCmd u) ;;;
      run openSimulatorCmd ;;;
      setSim id (mkSim u deviceName true auto) ;;;
      ret ("Simulator started: " ++ dq ++ deviceName ++ dq ++ " ("
           ++ dt_name deviceType ++ ", " ++ u ++ ")")
  end.

(** The handler of the [start_simulator] tool. *)
Definition start_simulator (id : string) (type : option string)
    : World -> State -> ToolResult * State :=
  handler "Error starting simulator: " (start_body id type).

Definition notRunningMessage (id : string) : string :=
  "No simulator is running for session " ++ dq ++ id ++ dq ++ ".".

Definition destroy_body (id : string) : M string :=
  sim <- getSim id ;;
  match sim with
  | None => throw (notRunningMessage id)
  | Some s =>
      (if owned s
       then (run (shutdownCmd (udid s)) ;;; run (deleteCmd (udid s)) ;;; ret tt)
       else ret tt) ;;;
      deleteSim id ;;;
      ret ((if owned s then "Simulator destroyed: "
            else "Detached from simulator: ")
           ++ dq ++ name s ++ dq ++ " (" ++ udid s ++ ")")
  end.

(** The handler of the [destroy_simulator] tool. *)
Definition destroy_simulator (id : string)
    : World -> State -> ToolResult * State :=
  handler "Error destroying simulator: " (destroy_body id).

Definition alreadyAttachedMessage (id : string) (existing : Sim) : string :=
  "Session " ++ dq ++ id ++ dq ++ " is already attached to simulator "
  ++ dq ++ name existing ++ dq ++ " (" ++ udid existing
  ++ "). Call destroy_simulator first.".

Definition notFoundMessage (u : string) : string :=
  "No simulator found with UDID " ++ dq ++ u ++ dq ++ ".".

Definition notBootedMessage (found : Device) (u : string) : string :=
  "Simulator " ++ dq ++ dev_name found ++ dq ++ " (" ++ u
  ++ ") is not booted (state: " ++ dev_state found ++ ").".

(** The two nested loops of [attach_simulator]: the first device with
    the given udid, runtime after runtime. *)
Definition findDevice (u : string) (devices : list (list Device))
    : option Device :=
  find (fun d => String.eqb (dev_udid d) u) (List.concat devices).

Definition attach_body (id u : string) : M string :=
  existing <- getSim id ;;
  match existing with
  | Some e => throw (alreadyAttachedMessage id e)
  | None =>
      out <- run listDevicesCmd ;;
      match json out with
      | Devices devices =>
          match findDevice u devices with
          | None => throw (notFoundMessage u)
          | Some found =>
              if negb (String.eqb (dev_state found) "Booted")
              then throw (notBootedMessage found u)
              else
                setSim id (mkSim u (dev_name found) false auto) ;;;
                ret ("Attached to simulator: " ++ dq ++ dev_name found ++ dq
                     ++ " (" ++ u ++ ")")
          end
      | _ => throw parseError
      end
  end.

(** The handler of the [attach_simulator] tool. *)
Definition attach_handler (id u : string)
    : World -> State -> ToolResult * State :=
  handler "Error attaching to simulator: " (attach_body id u).

(** Modelled from the spec: the answer of the server to a tool call.
    Missing from the source is the dispatch of [server.tool] (the MCP
    SDK's): it answers with the handler's result, or with the input error
    of a malformed identifier when the arguments do not pass the schema
    the tool was registered with. *)
Inductive Response : Type :=
| Result (r : ToolResult)
| InvalidArguments.

(** Modelled from the spec: a call of [attach_simulator] as registered.
    Missing from the source is the dispatch of [server.tool] (the MCP
    SDK's).  By the spec a malformed identifier is an input error,
    returned to the caller as a structured failure; the repository's
    notes have every input validated with its Zod schema.  So the
    arguments are parsed with the registered schema
    [{ id: sessionIdSchema, udid: z.string().regex(...) }] and only
    arguments that pass reach the handler.  The schema and the handler
    are the source's. *)
Definition attach_simulator (id u : string) (w : World) (st : State)
    : Response * State :=
  if sessionIdSchema id && udidRegex u
  then let (r, st') := attach_handler id u w st in (Result r, st')
  else (InvalidArguments, st).

(** One turn of the loop of [cleanupAllSimulators]. *)
Definition cleanupOne (entry : string * Sim) : M unit :=
  let '(_, s) := entry in
  if negb (owned s) then ret tt
  else
    tryCatch (run (shutdownCmd (udid s)) ;;; ret tt) (fun _ => ret tt) ;;;
    tryCatch (run (deleteCmd (udid s)) ;;; ret tt) (fun _ => ret tt).

Fixpoint forEach {A : Type} (f : A -> M unit) (l : list A) : M unit :=
  match l with
  | [] => ret tt
  | a :: rest => f a ;;; forEach f rest
  end.

(** [cleanupAllSimulators()] *)
Definition cleanupAllSimulators : M unit :=
  sims <- entries ;;
  forEach cleanupOne sims ;;;
  clearSims.

(** The commands the sweeper is expected to send for a registry. *)
Definition teardownCommands (m : Registry) : list Cmd :=
  flat_map (fun e => if owned (snd e)
                     then [shutdownCmd (udid (snd e)); deleteCmd (udid (snd e))]
                     else []) m.

Definition orientationName (o : Orientation) : string :=
  match o with
  | auto => "auto"
  | portrait => "portrait"
  | landscape_right => "landscape_right"
  | upside_down => "upside_down"
  | landscape_left => "landscape_left"
  end.

(** The handler of the [set_rotation_coords] tool: the stored handle is
    updated in place; its error text carries no troubleshooting link. *)
Definition set_rotation_body (id : string) (o : Orientation) : M string :=
  sim <- getSim id ;;
  match sim with
  | None =>
      throw ("No simulator is running for session " ++ dq ++ id ++ dq
             ++ ". Call start_simulator first.")
  | Some s =>
      setSim id (mkSim (udid s) (name s) (owned s) o) ;;;
      ret ("Coordinate rotation set to " ++ dq ++ orientationName o ++ dq
           ++ " for session " ++ dq ++ id ++ dq ++ ".")
  end.

Definition set_rotation_coords (id : string) (o : Orientation)
    (w : World) (st : State) : ToolResult * State :=
  match set_rotation_body id o w st with
  | (Return t, st') => (mkResult false t, st')
  | (Throw e, st') => (mkResult true ("Error setting rotation: " ++ e), st')
  end.

(** ** Sequences of lifecycle calls *)

Inductive Call : Type :=
| CallStart (id : string) (type : option string)
| CallAttach (id u : string)
| CallDestroy (id : string)
| CallSetRotation (id : string) (o : Orientation).

Definition perform (c : Call) (w : World) (st : State) : State :=
  match c with
  | CallStart id type => snd (start_simulator id type w st)
  | CallAttach id u => snd (attach_handler id u w st)
  | CallDestroy id => snd (destroy_simulator id w st)
  | CallSetRotation id o => snd (set_rotation_coords id o w st)
  end.

Fixpoint performAll (cs : list Call) (w : World) (st : State) : State :=
  match cs with
  | [] => st
  | c :: rest => performAll rest w (perform c w st)
  end.

(** Is [c] a [destroy_simulator] of session [id]? *)
Definition destroys (id : string) (c : Call) : bool :=
  match c with
  | CallDestroy id' => String.eqb id id'
  | _ => false
  end.

(** Two handles for the same instance: they may differ in the
    orientation setting only. *)
Definition sameInstance (a b : Sim) : Prop :=
  udid a = udid b /\ name a = name b /\ owned a = owned b.

(** [hay] contains [needle]. *)
Definition mentions (needle hay : string) : Prop :=
  exists before after, hay = before ++ needle ++ after.

(* ===================================================================== *)
(** * Sample data                                                          *)
(* ===================================================================== *)

Definition sampleDeviceTypes : list DeviceType :=
  [ mkDeviceType "iPhone 16 Pro" "com.apple.CoreSimulator.SimDeviceType.iPhone-16-Pro";
    mkDeviceType "iPhone SE" "com.apple.CoreSimulator.SimDeviceType.iPhone-SE";
    mkDeviceType "iPad Air" "com.apple.CoreSimulator.SimDeviceType.iPad-Air" ].

Definition sampleRuntimes : list Runtime :=
  [ mkRuntime "iOS 17.5" "com.apple.CoreSimulator.SimRuntime.iOS-17-5" true;
    mkRuntime "iOS 18.2" "com.apple.CoreSimulator.SimRuntime.iOS-18-2" true;
    mkRuntime "tvOS 18.2" "com.apple.CoreSimulator.SimRuntime.tvOS-18-2" true;
    mkRuntime "iOS 26.0" "com.apple.CoreSimulator.SimRuntime.iOS-26-0" false ].

Definition sampleUdid : string := "37A360EC-75F9-4AEC-8EFA-10F4A58D8CCA".
Definition otherUdid : string := "0B1C2D3E-1111-2222-3333-444455556666".
Definition thirdUdid : string := "9F8E7D6C-aaaa-bbbb-cccc-ddddeeeeffff".

Definition sampleDevices : list (list Device) :=
  [ [ mkDevice otherUdid "Old phone" "Shutdown" ];
    [ mkDevice sampleUdid "s1_iphone" "Booted" ] ].

Definition deviceTypesOutput : Output :=
  mkOutput "{ devicetypes }" (DeviceTypes sampleDeviceTypes).
Definition runtimesOutput : Output :=
  mkOutput "{ runtimes }" (Runtimes sampleRuntimes).
Definition devicesOutput : Output :=
  mkOutput "{ devices }" (Devices sampleDevices).
Definition createOutput : Output := mkOutput sampleUdid NotJson.
Definition silentOutput : Output := mkOutput "" NotJson.

Definition listEqb (a b : list string) : bool :=
  (List.length a =? List.length b)%nat
  && forallb (fun p => String.eqb (fst p) (snd p)) (combine a b).

Definition cmdEqb (a b : Cmd) : bool :=
  String.eqb (cmd a) (cmd b) && listEqb (args a) (args b).

(** A world with the sample catalogs, in which [create] prints
    [sampleUdid] and exactly the commands of [failing] are rejected. *)
Definition sampleWorld (failing : list Cmd) : World :=
  fun _ c =>
    if existsb (cmdEqb c) failing then Rejects "Command failed"
    else if cmdEqb c listDeviceTypesCmd
      then Resolves deviceTypesOutput
    else if cmdEqb c listRuntimesCmd
      then Resolves runtimesOutput
    else if cmdEqb c listDevicesCmd
      then Resolves devicesOutput
    else match args c with
         | "simctl" :: "create" :: _ => Resolves createOutput
         | _ => Resolves silentOutput
         end.

Definition emptyState : State := mkState [] [].

(** One session that started a simulator of its own. *)
Definition oneOwned : State :=
  mkState [("s1", mkSim sampleUdid "s1_iphone" true auto)] [].

(** Two owned sessions and an attached one. *)
Definition threeSessions : State :=
  mkState [ ("s1", mkSim sampleUdid "s1_iphone" true auto);
            ("s2", mkSim otherUdid "Old phone" false auto);
            ("s3", mkSim thirdUdid "s3_ipad" true landscape_left) ] [].

(** A snapshot in landscape: the root, a child with a 0x0 frame, a child
    with a frame, and a child without one. *)
Definition sampleTree : list JSValue :=
  [ JObj [ ("AXFrame", JStr "{{0, 0}, {844, 390}}");
           ("frame", frameObject (mkFrame 0 0 844 390));
           ("type", JStr "Application");
           ("children",
            JArr [ JObj [ ("frame", frameObject (mkFrame 0 0 0 0));
                          ("AXLabel", JStr "hidden") ];
                   JObj [ ("frame", frameObject (mkFrame 10 20 100 50));
                          ("AXLabel", JStr "OK");
                          ("enabled", JBool true) ];
                   JObj [ ("AXLabel", JNull) ] ]) ] ].

(** Calls of other sessions, and a rotation of session s1, with no
    destroy of s1 among them. *)
Definition sampleCalls : list Call :=
  [ CallAttach "s2" sampleUdid;
    CallSetRotation "s1" landscape_left;
    CallDestroy "s2";
    CallStart "s3" (Some "iPad") ].


(* ===================================================================== *)
(** * Session look-up and the calls seen as a whole                        *)
(* ===================================================================== *)

Definition noSessionMessage (id : string) : string :=
  "No simulator is running for session " ++ dq ++ id ++ dq
  ++ ". Call start_simulator first.".

(** [getManagedSimulatorId(id)] *)
Definition getManagedSimulatorId (id : string) : M string :=
  sim <- getSim id ;;
  match sim with
  | None => throw (noSessionMessage id)
  | Some s => ret (udid s)
  end.

(** The session a lifecycle call is about. *)
Definition callId (c : Call) : string :=
  match c with
  | CallStart id _ | CallAttach id _ | CallDestroy id
  | CallSetRotation id _ => id
  end.

(** What a lifecycle call returns. *)
Definition callResult (c : Call) (w : World) (st : State) : ToolResult :=
  match c with
  | CallStart id type => fst (start_simulator id type w st)
  | CallAttach id u => fst (attach_handler id u w st)
  | CallDestroy id => fst (destroy_simulator id w st)
  | CallSetRotation id o => fst (set_rotation_coords id o w st)
  end.

(** The commands [start_simulator] sends, in order, when every step
    succeeds. *)
Definition startCommands (deviceName typeId runtime u : string) : list Cmd :=
  [ listDeviceTypesCmd; listRuntimesCmd;
    createCmd deviceName typeId runtime; bootCmd u; openSimulatorCmd ].

(** A command that shuts a simulator down or deletes it. *)
Definition destructive (c : Cmd) : bool :=
  match args c with
  | "simctl" :: "shutdown" :: _ | "simctl" :: "delete" :: _ => true
  | _ => false
  end.

(* ===================================================================== *)
(** * Launching and installing apps                                        *)
(* ===================================================================== *)

(** One character of [\d]. *)
Definition isDigit (c : ascii) : bool :=
  let n := nat_of_ascii c in ((48 <=? n) && (n <=? 57))%nat.

(** The longest run of digits at the head of [s]. *)
Fixpoint digitRun (s : string) : string :=
  match s with
  | String c rest => if isDigit c then String c (digitRun rest) else EmptyString
  | EmptyString => EmptyString
  end.

(** [stdout.match(/^(\d+)/)], then [pidMatch ? pidMatch[1] : null]. *)
Definition pidOf (out : string) : option string :=
  match digitRun out with
  | EmptyString => None
  | digits => Some digits
  end.

Definition launchCmd (terminate_running : option bool) (u bundle_id : string)
    : Cmd :=
  xcrun (["simctl"; "launch"]
         ++ (match terminate_running with
             | Some true => ["--terminate-running-process"]
             | _ => []
             end)
         ++ [u; bundle_id])%list.

Definition launch_body (id bundle_id : string) (terminate_running : option bool)
    : M string :=
  u <- getManagedSimulatorId id ;;
  out <- run (launchCmd terminate_running u bundle_id) ;;
  match pidOf (stdout out) with
  | Some pid =>
      ret ("App " ++ bundle_id ++ " launched successfully with PID: " ++ pid)
  | None => ret ("App " ++ bundle_id ++ " launched successfully")
  end.

(** The handler of the [launch_app] tool. *)
Definition launch_app (id bundle_id : string) (terminate_running : option bool)
    : World -> State -> ToolResult * State :=
  handler "Error launching app: " (launch_body id bundle_id terminate_running).

(* ===================================================================== *)
(** * The host: environment, file system, path and JSON functions          *)
(* ===================================================================== *)

(** What the process reads from its host: two environment variables, the
    home directory, and the functions of Node it calls on paths, files and
    JSON texts ([path.join], [path.resolve], [fs.existsSync],
    [JSON.parse] with [None] for a syntax error, [JSON.stringify]). *)
Record Host : Type := mkHost {
  IOS_SIMULATOR_MCP_IDB_PATH : option string;
  IOS_SIMULATOR_MCP_DEFAULT_OUTPUT_DIR : option string;
  homedir : string;
  pathJoin : string -> string -> string;
  pathResolve : string -> string;
  existsSync : string -> bool;
  jsonParse : string -> option JSValue;
  jsonStringify : JSValue -> string
}.

(** [path.isAbsolute] on the platform of the simulator (POSIX). *)
Definition isAbsolute (p : string) : bool := startsWith p "/".

(** [s.slice(n)] *)
Fixpoint slice (n : nat) (s : string) : string :=
  match n, s with
  | O, _ => s
  | S n', String _ rest => slice n' rest
  | S _, EmptyString => EmptyString
  end.

(** [p.startsWith("~/") ? path.join(os.homedir(), p.slice(2)) : p] *)
Definition expandTilde (h : Host) (p : string) : string :=
  if startsWith p "~/" then pathJoin h (homedir h) (slice 2 p) else p.

(** An environment variable that is set and not empty. *)
Definition envValue (v : option string) : option string :=
  match v with
  | Some s => if String.eqb s "" then None else Some s
  | None => None
  end.

Definition missingIdbMessage (expandedPath : string) : string :=
  "Custom IDB path specified in IOS_SIMULATOR_MCP_IDB_PATH does not exist: "
  ++ expandedPath.

(** [getIdbPath()] *)
Definition getIdbPath (h : Host) : Except string :=
  match envValue (IOS_SIMULATOR_MCP_IDB_PATH h) with
  | Some customPath =>
      let expandedPath := expandTilde h customPath in
      if negb (existsSync h expandedPath)
      then Throw (missingIdbMessage expandedPath)
      else Return expandedPath
  | None => Return "idb"
  end.

(** [idb(...args)] *)
Definition idb (h : Host) (a : list string) : M Output :=
  match getIdbPath h with
  | Return p => run (mkCmd p a)
  | Throw e => throw e
  end.

(** [ensureAbsolutePath(filePath)] *)
Definition ensureAbsolutePath (h : Host) (filePath : string) : string :=
  if isAbsolute filePath then filePath
  else if startsWith filePath "~/"
  then pathJoin h (homedir h) (slice 2 filePath)
  else
    let defaultDir :=
      match envValue (IOS_SIMULATOR_MCP_DEFAULT_OUTPUT_DIR h) with
      | Some customDefaultDir => expandTilde h customDefaultDir
      | None => pathJoin h (homedir h) "Downloads"
      end in
    pathJoin h defaultDir filePath.

Definition installCmd (u absolutePath : string) : Cmd :=
  xcrun ["simctl"; "install"; u; absolutePath].

Definition install_body (h : Host) (id app_path : string) : M string :=
  u <- getManagedSimulatorId id ;;
  let absolutePath :=
    if isAbsolute app_path then app_path else pathResolve h app_path in
  if negb (existsSync h absolutePath)
  then throw ("App bundle not found at: " ++ absolutePath)
  else
    run (installCmd u absolutePath) ;;;
    ret ("App installed successfully from: " ++ absolutePath).

(** The handler of the [install_app] tool. *)
Definition install_app (h : Host) (id app_path : string)
    : World -> State -> ToolResult * State :=
  handler "Error installing app: " (install_body h id app_path).

(* ===================================================================== *)
(** * Describing the screen                                                *)
(* ===================================================================== *)

(** [elements[0]] on a parsed value other than [null]. *)
Definition elementZero (elements : JSValue) : option JSValue :=
  match elements with
  | JArr (first :: _) => Some first
  | JObj ps => getProp "0" ps
  | JStr (String c _) => Some (JStr (String c EmptyString))
  | _ => None
  end.

(** [v?.frame] *)
Definition optionalFrame (v : option JSValue) : option JSValue :=
  match v with
  | None | Some JNull => None
  | Some v' => member v' "frame"
  end.

(** What [ui_describe_all] answers with, once the output is parsed. *)
Inductive Rendering : Type :=
| Verbatim                          (* the output as idb printed it *)
| Rewrite (transformed : list JSValue)   (* JSON.stringify(transformed) *)
| Incomplete.                       (* throws, or leaves the typed fragment *)

(** The part of [ui_describe_all] between [JSON.parse] and the answer. *)
Definition describeAll (setting : Orientation) (elements : JSValue) : Rendering :=
  match elements with
  | JNull => Incomplete
  | _ =>
      match optionalFrame (elementZero elements) with
      | None => Verbatim
      | Some screenFrame =>
          if truthy screenFrame
             && (truthyOpt (member screenFrame "width")
                 || truthyOpt (member screenFrame "height"))
          then
            match setting with
            | portrait => Verbatim
            | _ =>
                match member screenFrame "width", member screenFrame "height" with
                | Some (JNum screenW), Some (JNum screenH) =>
                    match getEffectiveOrientation setting screenW screenH with
                    | portrait => Verbatim
                    | o =>
                        match elements with
                        | JArr els =>
                            match transformElementTree els o screenW screenH with
                            | Some transformed => Rewrite transformed
                            | None => Incomplete
                            end
                        | _ => Incomplete
                        end
                    end
                | _, _ => Incomplete
                end
            end
          else Verbatim
      end
  end.

Definition describeAllArgs (u : string) : list string :=
  ["ui"; "describe-all"; "--udid"; u; "--json"; "--nested"].

(** The body of the handler of [ui_describe_all]; [None] stands for
    [Incomplete]. *)
Definition describe_all_body (h : Host) (id : string) : M (option string) :=
  sim <- getSim id ;;
  match sim with
  | None => throw (noSessionMessage id)
  | Some s =>
      out <- idb h (describeAllArgs (udid s)) ;;
      match jsonParse h (stdout out) with
      | None => throw parseError
      | Some elements =>
          match describeAll (orientation s) elements with
          | Verbatim => ret (Some (stdout out))
          | Rewrite transformed =>
              ret (Some (jsonStringify h (JArr transformed)))
          | Incomplete => ret None
          end
      end
  end.

(** The handler of the [ui_describe_all] tool. *)
Definition ui_describe_all (h : Host) (id : string) (w : World) (st : State)
    : option ToolResult * State :=
  match describe_all_body h id w st with
  | (Return (Some t), st') => (Some (mkResult false t), st')
  | (Return None, st') => (None, st')
  | (Throw e, st') =>
      (Some (mkResult true
               (errorWithTroubleshooting
                  ("Error describing all of the ui: " ++ e))), st')
  end.

(** ** A sample host *)

Definition sampleTreeText : string := "[ landscape snapshot ]".

Definition sampleHost : Host :=
  {| IOS_SIMULATOR_MCP_IDB_PATH := Some "~/bin/idb";
     IOS_SIMULATOR_MCP_DEFAULT_OUTPUT_DIR := Some "~/shots";
     homedir := "/Users/dev";
     pathJoin := fun a b => a ++ "/" ++ b;
     pathResolve := fun p => "/work/" ++ p;
     existsSync := fun p => String.eqb p "/Users/dev/bin/idb";
     jsonParse := fun t => if String.eqb t sampleTreeText
                           then Some (JArr sampleTree) else None;
     jsonStringify := fun _ => "[ portrait snapshot ]" |}.

(** A world in which idb prints the sample snapshot. *)
Definition describeWorld : World :=
  fun _ c =>
    match args c with
    | "ui" :: "describe-all" :: _ => Resolves (mkOutput sampleTreeText NotJson)
    | "simctl" :: "launch" :: _ => Resolves (mkOutput "4242: com.example.app" NotJson)
    | _ => Resolves silentOutput
    end.

(** A frame that lies on a screen of the given dimensions. *)
Definition onScreen (f : Frame) (screenW screenH : Z) : Prop :=
  0 <= x f /\ 0 <= y f /\ 0 <= width f /\ 0 <= height f
  /\ x f + width f <= screenW /\ y f + height f <= screenH.

Definition isDestroy (c : Call) : bool :=
  match c with
  | CallDestroy _ => true
  | _ => false
  end.

(** Does [s] begin with a digit? *)
Definition startsWithDigit (s : string) : bool :=
  match s with
  | String c _ => isDigit c
  | EmptyString => false
  end.

(** The output directory setting is usable: unset, empty, absolute, or
    relative to the home directory. *)
Definition outputDirAnchored (h : Host) : bool :=
  match envValue (IOS_SIMULATOR_MCP_DEFAULT_OUTPUT_DIR h) with
  | Some d => isAbsolute d || startsWith d "~/"
  | None => true
  end.

(** One session whose rotation is set to portrait. *)
Definition onePortrait : State :=
  mkState [("s1", mkSim sampleUdid "s1_iphone" true portrait)] [].

(* ===================================================================== *)
(** * Properties of the coordinate transform                               *)
(* ===================================================================== *)

Example auto_portrait : getEffectiveOrientation auto 390 844 = portrait.
Proof. reflexivity. Qed.

Example auto_landscape : getEffectiveOrientation auto 844 390 = landscape_right.
Proof. reflexivity. Qed.

Example landscape_right_sample :
  transformFrame (mkFrame 10 20 100 50) landscape_right 844 390
  = mkFrame 20 734 50 100.
Proof. reflexivity. Qed.

Example format_sample :
  formatAXFrame (mkFrame 20 734 50 100) = "{{20, 734}, {50, 100}}".
Proof. reflexivity. Qed.

Lemma Frame_ext (f g : Frame) :
  x f = x g -> y f = y g -> width f = width g -> height f = height g -> f = g.
Proof.
  destruct f, g; simpl; intros -> -> -> ->; reflexivity.
Qed.

(** Over integers every transform is undone by the transform for the
    inverse orientation (landscape_right and landscape_left undo each
    other, upside_down undoes itself), taken on the screen the first
    transform leads to. *)
Lemma transformFrame_inverse :
  forall (r : Frame) (o : Orientation) (screenW screenH : Z),
    transformFrame (transformFrame r o screenW screenH)
                   (inverseOrientation o)
                   (fst (transformedScreen o screenW screenH))
                   (snd (transformedScreen o screenW screenH)) = r.
Proof.
  intros r o screenW screenH.
  destruct o; simpl; try reflexivity; apply Frame_ext; simpl; lia.
Qed.

(** C9. The transform never scales: in every orientation the transformed
    frame has the area of the input, the landscape cases exchanging width
    and height and the others keeping them. *)
Theorem transformFrame_preserves_area :
  forall (f : Frame) (o : Orientation) (screenW screenH : Z),
    let f' := transformFrame f o screenW screenH in
    area f' = area f
    /\ match o with
       | landscape_right | landscape_left =>
           width f' = height f /\ height f' = width f
       | _ => width f' = width f /\ height f' = height f
       end.
Proof.
  intros f o screenW screenH.
  destruct o; unfold area; simpl; repeat split; lia.
Qed.

(* ===================================================================== *)
(** * The transform over doubles: where it is exact                        *)
(* ===================================================================== *)

Lemma shiftPos_add (p : positive) (a b : nat) :
  shiftPos (shiftPos p a) b = shiftPos p (a + b).
Proof.
  unfold shiftPos. rewrite Nat.add_comm. symmetry. apply Nat.iter_add.
Qed.

Lemma Pos_iter_shiftPos (p d : positive) :
  Pos.iter xO p d = shiftPos p (Pos.to_nat d).
Proof. unfold shiftPos. apply Pos2Nat.inj_iter. Qed.

Lemma digits_shiftPos (p : positive) (n : nat) :
  Zpos (digits2_pos (shiftPos p n)) = Zpos (digits2_pos p) + Z.of_nat n.
Proof.
  induction n as [|n IH]; [simpl; lia|].
  change (shiftPos p (S n)) with (xO (shiftPos p n)). cbn [digits2_pos].
  rewrite Pos2Z.inj_succ, IH. lia.
Qed.

Lemma Zpos_shiftPos (p : positive) (n : nat) :
  Zpos (shiftPos p n) = Zpos p * 2 ^ Z.of_nat n.
Proof.
  induction n as [|n IH]; [simpl; lia|].
  change (shiftPos p (S n)) with (xO (shiftPos p n)).
  rewrite Pos2Z.inj_xO, IH, Nat2Z.inj_succ, Z.pow_succ_r by lia. ring.
Qed.

Lemma iter_pos_nat {A : Type} (f : A -> A) (p : positive) (a : A) :
  iter_pos f p a = Nat.iter (Pos.to_nat p) f a.
Proof.
  revert a. induction p as [p IH|p IH|]; intros a; cbn [iter_pos].
  - rewrite !IH. rewrite Pos2Nat.inj_xI.
    replace (S (2 * Pos.to_nat p))%nat
      with (Pos.to_nat p + (Pos.to_nat p + 1))%nat by lia.
    rewrite !Nat.iter_add. reflexivity.
  - rewrite !IH. rewrite Pos2Nat.inj_xO.
    replace (2 * Pos.to_nat p)%nat
      with (Pos.to_nat p + Pos.to_nat p)%nat by lia.
    rewrite Nat.iter_add. reflexivity.
  - reflexivity.
Qed.

(** Shifting right what was shifted left loses nothing. *)
Lemma shr_shiftPos (p : positive) (n : nat) :
  Nat.iter n shr_1 (Build_shr_record (Zpos (shiftPos p n)) false false)
  = Build_shr_record (Zpos p) false false.
Proof.
  induction n as [|n IH]; [reflexivity|].
  rewrite Nat.iter_succ_r.
  change (shiftPos p (S n)) with (xO (shiftPos p n)).
  cbn [shr_1 orb]. exact IH.
Qed.

Lemma digits_size (p : positive) : digits2_pos p = Pos.size p.
Proof. induction p; simpl; congruence. Qed.

Lemma digits_bound (p : positive) (n : Z) :
  0 <= n -> Zpos p < 2 ^ n -> Zpos (digits2_pos p) <= n.
Proof.
  intros Hn H. rewrite digits_size.
  destruct (Z_le_gt_dec (Zpos (Pos.size p)) n) as [L|G]; [exact L|exfalso].
  pose proof (Pos.size_le p) as S.
  assert (P : 2 ^ (n + 1) <= 2 ^ Zpos (Pos.size p))
    by (apply Z.pow_le_mono_r; lia).
  assert (E : 2 ^ Zpos (Pos.size p) = Zpos (2 ^ Pos.size p))
    by (rewrite Pos2Z.inj_pow; reflexivity).
  assert (Q : Zpos (2 ^ Pos.size p) <= Zpos p~0)
    by (apply Pos2Z.pos_le_pos, S).
  rewrite Z.pow_add_r, Z.pow_1_r in P by lia. lia.
Qed.

(** A mantissa of 53 digits passes through rounding as it is. *)
Lemma round_aux_full (s : bool) (m : positive) (e : Z) :
  Zpos (digits2_pos m) = 53 -> -1074 <= e <= 971 ->
  binary_round_aux Binary64.prec Binary64.emax s (Zpos m) e loc_Exact
  = S754_finite s m e.
Proof.
  intros D E.
  unfold binary_round_aux, shr_fexp, fexp, emin, Binary64.prec, Binary64.emax.
  cbn [Zdigits2 shr_record_of_loc]. rewrite D.
  replace (Z.max (53 + e - 53) (3 - 1024 - 53) - e) with 0 by lia.
  cbn [shr shr_m loc_of_shr_record round_nearest_even Zdigits2].
  rewrite D.
  replace (Z.max (53 + e - 53) (3 - 1024 - 53) - e) with 0 by lia.
  cbn [shr shr_m].
  replace (e <=? 1024 - 53) with true by (symmetry; apply Z.leb_le; lia).
  reflexivity.
Qed.

(** Rounding [q * 2^k * 2^(e-k)], for [q] of at most 53 digits: the
    mantissa is brought to 53 digits and nothing is lost. *)
Lemma binary_round_shiftPos (s : bool) (q : positive) (k : nat) (e : Z) :
  let d := Zpos (digits2_pos q) in
  d <= 53 -> -1074 <= d - 53 + e <= 971 ->
  binary_round Binary64.prec Binary64.emax s (shiftPos q k) (e - Z.of_nat k)
  = S754_finite s (shiftPos q (Z.to_nat (53 - d))) (d - 53 + e).
Proof.
  intros d Hd He. subst d.
  assert (D1 : 1 <= Zpos (digits2_pos q)) by lia.
  set (d := Zpos (digits2_pos q)) in *.
  unfold binary_round.
  rewrite digits_shiftPos. fold d.
  replace (fexp Binary64.prec Binary64.emax
             (d + Z.of_nat k + (e - Z.of_nat k))) with (d - 53 + e)
    by (unfold fexp, emin, Binary64.prec, Binary64.emax; lia).
  unfold shl_align.
  destruct (d - 53 + e - (e - Z.of_nat k)) as [|t|t] eqn:T.
  - (* 53 digits already *)
    assert (K : k = Z.to_nat (53 - d)) by lia.
    rewrite <- K.
    replace (d - 53 + e) with (e - Z.of_nat k) by lia.
    apply round_aux_full; [rewrite digits_shiftPos; fold d; lia | lia].
  - (* more than 53 digits: the digits shifted out are zeros *)
    unfold binary_round_aux, shr_fexp.
    cbn [Zdigits2 shr_record_of_loc]. rewrite digits_shiftPos. fold d.
    replace (fexp Binary64.prec Binary64.emax
               (d + Z.of_nat k + (e - Z.of_nat k)) - (e - Z.of_nat k))
      with (Zpos t)
      by (unfold fexp, emin, Binary64.prec, Binary64.emax; lia).
    cbn [shr]. rewrite iter_pos_nat.
    assert (K : (k = Z.to_nat (53 - d) + Pos.to_nat t)%nat) by lia.
    assert (R : Nat.iter (Pos.to_nat t) shr_1
                  (Build_shr_record (Zpos (shiftPos q k)) false false)
                = Build_shr_record
                    (Zpos (shiftPos q (Z.to_nat (53 - d)))) false false).
    { rewrite K, <- shiftPos_add. apply shr_shiftPos. }
    rewrite R.
    cbn [shr_m loc_of_shr_record round_nearest_even Zdigits2].
    rewrite digits_shiftPos. fold d.
    replace (fexp Binary64.prec Binary64.emax
               (d + Z.of_nat (Z.to_nat (53 - d))
                + (e - Z.of_nat k + Zpos t))
             - (e - Z.of_nat k + Zpos t)) with 0
      by (unfold fexp, emin, Binary64.prec, Binary64.emax; lia).
    cbn [shr shr_m].
    replace (e - Z.of_nat k + Zpos t) with (d - 53 + e) by lia.
    replace (d - 53 + e <=? Binary64.emax - Binary64.prec) with true
      by (symmetry; apply Z.leb_le;
          unfold Binary64.emax, Binary64.prec; lia).
    reflexivity.
  - (* fewer than 53 digits: shift left *)
    rewrite Pos_iter_shiftPos, shiftPos_add.
    replace (k + Pos.to_nat t)%nat with (Z.to_nat (53 - d)) by lia.
    apply round_aux_full; [rewrite digits_shiftPos; fold d; lia | lia].
Qed.

Lemma binary_round_exact (s : bool) (q : positive) (e : Z) :
  Zpos (digits2_pos q) <= 53 -> scaleInRange e ->
  binary_round Binary64.prec Binary64.emax s q e
  = S754_finite s (shiftPos q (Z.to_nat (53 - Zpos (digits2_pos q))))
      (Zpos (digits2_pos q) - 53 + e).
Proof.
  intros D E. unfold scaleInRange in E.
  pose proof (binary_round_shiftPos s q 0 e D) as R.
  cbn [Z.of_nat shiftPos Nat.iter] in R. rewrite Z.sub_0_r in R.
  apply R. lia.
Qed.

(** The double of a non-zero [n * 2^e], [n] below [2^53]. *)
Lemma dyadic_nonzero (n e : Z) :
  n <> 0 -> Z.abs n < 2 ^ 53 -> scaleInRange e ->
  let q := Z.to_pos (Z.abs n) in
  let d := Zpos (digits2_pos q) in
  1 <= d <= 53
  /\ Binary64.dyadic n e
     = S754_finite (n <? 0) (shiftPos q (Z.to_nat (53 - d))) (d - 53 + e).
Proof.
  intros N B E q d. subst q d.
  destruct n as [|q|q]; [contradiction| |]; cbn [Z.abs Z.to_pos].
  - assert (D : Zpos (digits2_pos q) <= 53) by (apply digits_bound; lia).
    split; [lia | apply (binary_round_exact false q e D E)].
  - assert (D : Zpos (digits2_pos q) <= 53) by (apply digits_bound; lia).
    split; [lia | apply (binary_round_exact true q e D E)].
Qed.

(** Writing [n * 2^e] with [k] more binary places names the same double. *)
Lemma dyadic_scaled (n : Z) (k : nat) (e : Z) :
  Z.abs n < 2 ^ 53 -> scaleInRange e ->
  Binary64.dyadic (n * 2 ^ Z.of_nat k) (e - Z.of_nat k) = Binary64.dyadic n e.
Proof.
  intros B E. destruct n as [|q|q].
  - reflexivity.
  - assert (D : Zpos (digits2_pos q) <= 53) by (apply digits_bound; lia).
    rewrite <- Zpos_shiftPos. unfold Binary64.dyadic. cbn [binary_normalize].
    rewrite (binary_round_shiftPos false q k e D)
      by (unfold scaleInRange in E; lia).
    symmetry. apply (binary_round_exact false q e D E).
  - assert (D : Zpos (digits2_pos q) <= 53) by (apply digits_bound; lia).
    change (Zneg q) with (- Zpos q) at 1.
    rewrite Z.mul_opp_l, <- Zpos_shiftPos.
    unfold Binary64.dyadic. cbn [Z.opp binary_normalize].
    rewrite (binary_round_shiftPos true q k e D)
      by (unfold scaleInRange in E; lia).
    symmetry. apply (binary_round_exact true q e D E).
Qed.

Lemma shl_align_fst (m : positive) (e ez : Z) :
  ez <= e -> fst (shl_align m e ez) = shiftPos m (Z.to_nat (e - ez)).
Proof.
  intros L. unfold shl_align.
  destruct (ez - e) as [|t|t] eqn:T.
  - replace (e - ez) with 0 by lia. reflexivity.
  - lia.
  - cbn [fst]. rewrite Pos_iter_shiftPos. f_equal. lia.
Qed.

Lemma cond_Zopp_shiftPos (n : Z) (k : nat) :
  n <> 0 ->
  cond_Zopp (n <? 0) (Zpos (shiftPos (Z.to_pos (Z.abs n)) k))
  = n * 2 ^ Z.of_nat k.
Proof.
  intros N. rewrite Zpos_shiftPos.
  destruct n as [|p|p]; [contradiction | reflexivity |].
  cbn [Z.abs Z.to_pos Z.ltb Z.compare cond_Zopp].
  change (Zneg p) with (- Zpos p). ring.
Qed.

(** Subtraction at a common scale is exact as long as the numerators of
    the operands and of the result stay below [2^53] in magnitude. *)
Lemma sub_exact (a b e : Z) :
  scaleInRange e ->
  Z.abs a < 2 ^ 53 -> Z.abs b < 2 ^ 53 -> Z.abs (a - b) < 2 ^ 53 ->
  Binary64.sub (Binary64.dyadic a e) (Binary64.dyadic b e)
  = Binary64.dyadic (a - b) e.
Proof.
  intros E Ba Bb Bd.
  destruct (Z.eq_dec b 0) as [->|Nb].
  - rewrite Z.sub_0_r. destruct (Z.eq_dec a 0) as [->|Na]; [reflexivity|].
    destruct (dyadic_nonzero a e Na Ba E) as [_ ->]. reflexivity.
  - destruct (dyadic_nonzero b e Nb Bb E) as [Db Eb].
    destruct (Z.eq_dec a 0) as [->|Na].
    + rewrite Eb. change (Binary64.dyadic 0 e) with (S754_zero false).
      unfold Binary64.sub. cbn [SFsub]. rewrite Z.sub_0_l.
      assert (Nb' : - b <> 0) by lia.
      assert (Bb' : Z.abs (- b) < 2 ^ 53) by lia.
      destruct (dyadic_nonzero (- b) e Nb' Bb' E) as [_ E'].
      rewrite E'. rewrite Z.abs_opp.
      f_equal. destruct b; try contradiction; reflexivity.
    + destruct (dyadic_nonzero a e Na Ba E) as [Da Ea].
      rewrite Ea, Eb. unfold Binary64.sub. cbn [SFsub].
      set (qa := Z.to_pos (Z.abs a)) in *.
      set (qb := Z.to_pos (Z.abs b)) in *.
      set (da := Zpos (digits2_pos qa)) in *.
      set (db := Zpos (digits2_pos qb)) in *.
      set (ez := Z.min (da - 53 + e) (db - 53 + e)).
      rewrite !shl_align_fst by lia.
      rewrite !shiftPos_add.
      set (K := Z.to_nat (e - ez)).
      replace (Z.to_nat (53 - da) + Z.to_nat (da - 53 + e - ez))%nat
        with K by lia.
      replace (Z.to_nat (53 - db) + Z.to_nat (db - 53 + e - ez))%nat
        with K by lia.
      unfold qa, qb. rewrite !cond_Zopp_shiftPos by assumption.
      rewrite <- Z.mul_sub_distr_r.
      replace ez with (e - Z.of_nat K) by lia.
      apply dyadic_scaled; assumption.
Qed.

(** [s - c - d], the expression of the transform, at a common scale. *)
Lemma sub_sub_exact (s c d e : Z) :
  scaleInRange e ->
  Z.abs s < 2 ^ 53 -> Z.abs c < 2 ^ 53 -> Z.abs d < 2 ^ 53 ->
  Z.abs (s - c) < 2 ^ 53 -> Z.abs (s - c - d) < 2 ^ 53 ->
  Binary64.sub (Binary64.sub (Binary64.dyadic s e) (Binary64.dyadic c e))
               (Binary64.dyadic d e)
  = Binary64.dyadic (s - c - d) e.
Proof.
  intros E Bs Bc Bd B1 B2.
  rewrite (sub_exact s c e E Bs Bc B1).
  apply (sub_exact (s - c) d e E B1 Bd B2).
Qed.

(** On numerators at a common scale the transform over doubles is the
    transform over integers. *)
Lemma transformFrame_scaled (e : Z) (r : Frame) (o : Orientation)
    (screenW screenH : Z) :
  scaleInRange e ->
  exactOn r screenW screenH ->
  Binary64.transformFrame (scaled e r) o
    (Binary64.dyadic screenW e) (Binary64.dyadic screenH e)
  = scaled e (transformFrame r o screenW screenH).
Proof.
  intros E (Bx & Bw & BW & BWx & BWxw & By & Bh & BH & BHy & BHyh).
  destruct o; unfold Binary64.transformFrame, transformFrame, scaled;
    cbn [Binary64.x Binary64.y Binary64.width Binary64.height
         x y width height];
    try reflexivity;
    rewrite ?(sub_sub_exact screenW (x r) (width r) e E BW Bx Bw BWx BWxw),
            ?(sub_sub_exact screenH (y r) (height r) e E BH By Bh BHy BHyh);
    reflexivity.
Qed.

Lemma numeratorsInRange_exactOn (r : Frame) (screenW screenH : Z) :
  numeratorsInRange r screenW screenH -> exactOn r screenW screenH.
Proof.
  unfold numeratorsInRange, exactOn. intros (Bx & By & Bw & Bh & BW & BH).
  repeat split; lia.
Qed.

(** The frame a transform leads to is within reach of the next one. *)
Lemma numeratorsInRange_exactOn_next (r : Frame) (o : Orientation)
    (screenW screenH : Z) :
  numeratorsInRange r screenW screenH ->
  exactOn (transformFrame r o screenW screenH)
          (fst (transformedScreen o screenW screenH))
          (snd (transformedScreen o screenW screenH)).
Proof.
  unfold numeratorsInRange, exactOn. intros (Bx & By & Bw & Bh & BW & BH).
  destruct o; cbn [transformFrame transformedScreen fst snd x y width height];
    repeat split; lia.
Qed.

Example thirdsFrame_y :
  Binary64.y thirdsFrame = Binary64.dyadic 8397336805201237 (-47).
Proof. vm_compute. reflexivity. Qed.

Example thirdsFrame_height :
  Binary64.height thirdsFrame = Binary64.dyadic 5723324526450005 (-48).
Proof. vm_compute. reflexivity. Qed.

(** C4, as stated, fails on doubles.  The frame
    {x: 16.5, y: 59.666666666666664, width: 361, height: 20.333333333333332}
    on a 390 x 844 screen, transformed for upside_down and transformed
    again for upside_down, comes back with y = 59.66666666666667: the
    mantissa of y has moved from 8397336805201237 to 8397336805201238. *)
Lemma transformFrame_round_trip_rounds :
  let W := Binary64.ofZ 390 in
  let H := Binary64.ofZ 844 in
  let back :=
    Binary64.transformFrame
      (Binary64.transformFrame thirdsFrame upside_down W H)
      (inverseOrientation upside_down) W H in
  back <> thirdsFrame
  /\ Binary64.y thirdsFrame = Binary64.dyadic 8397336805201237 (-47)
  /\ Binary64.y back = Binary64.dyadic 8397336805201238 (-47).
Proof.
  split; [|split]; vm_compute; [discriminate | reflexivity | reflexivity].
Qed.

(** C4, as the code has it.  Every subtraction rounds to the nearest
    double.  For every frame of doubles and every orientation, the
    transform followed by the transform for the inverse orientation gives
    back the width and the height one started from.  It gives back the
    whole frame where the subtractions are exact: on frames whose x, y,
    width and height, with the screen's width and height, are multiples
    of one power of two 2^e (whole points for e = 0, half points for
    e = -1) with numerators below 2^51 in magnitude, the second transform
    being taken on the screen the first one leads to. *)
Theorem transformFrame_round_trip_exact :
  forall (o : Orientation),
    (forall (f : Binary64.Frame)
            (screenW screenH screenW' screenH' : Binary64.number),
       let back :=
         Binary64.transformFrame
           (Binary64.transformFrame f o screenW screenH)
           (inverseOrientation o) screenW' screenH' in
       Binary64.width back = Binary64.width f
       /\ Binary64.height back = Binary64.height f)
    /\ (forall (e : Z) (r : Frame) (screenW screenH : Z),
          scaleInRange e ->
          numeratorsInRange r screenW screenH ->
          Binary64.transformFrame
            (Binary64.transformFrame (scaled e r) o
               (Binary64.dyadic screenW e) (Binary64.dyadic screenH e))
            (inverseOrientation o)
            (Binary64.dyadic (fst (transformedScreen o screenW screenH)) e)
            (Binary64.dyadic (snd (transformedScreen o screenW screenH)) e)
          = scaled e r).
Proof.
  intros o. split.
  - intros f screenW screenH screenW' screenH'.
    destruct o; split; reflexivity.
  - intros e r screenW screenH E B.
    rewrite (transformFrame_scaled e r o screenW screenH E
               (numeratorsInRange_exactOn r screenW screenH B)).
    rewrite (transformFrame_scaled e _ (inverseOrientation o) _ _ E
               (numeratorsInRange_exactOn_next r o screenW screenH B)).
    f_equal. apply transformFrame_inverse.
Qed.

(** Half points: {x: 16.5, y: 59.5, width: 361, height: 20.5} on a
    390 x 844 screen, through landscape_right and back. *)
Lemma transformFrame_round_trip_exact_witness :
  scaleInRange (-1)
  /\ numeratorsInRange (mkFrame 33 119 722 41) 780 1688
  /\ Binary64.transformFrame
       (Binary64.transformFrame (scaled (-1) (mkFrame 33 119 722 41))
          landscape_right (Binary64.ofZ 390) (Binary64.ofZ 844))
       landscape_left (Binary64.ofZ 844) (Binary64.ofZ 390)
     = scaled (-1) (mkFrame 33 119 722 41).
Proof.
  assert (E : scaleInRange (-1)) by (unfold scaleInRange; lia).
  assert (B : numeratorsInRange (mkFrame 33 119 722 41) 780 1688)
    by (unfold numeratorsInRange; simpl; lia).
  split; [exact E|]. split; [exact B|].
  exact (proj2 (transformFrame_round_trip_exact landscape_right)
           (-1) (mkFrame 33 119 722 41) 780 1688 E B).
Defined.

(* ===================================================================== *)
(** * Properties of the element-tree rewrite                               *)
(* ===================================================================== *)

#[local] Arguments String.eqb : simpl never.









Lemma asFrame_inv (fr : JSValue) (f : Frame) :
  asFrame fr = Some f ->
  exists ps, fr = JObj ps
    /\ getProp "width" ps = Some (JNum (width f))
    /\ getProp "height" ps = Some (JNum (height f)).
Proof.
  unfold asFrame. destruct fr as [ | | | | | ps]; simpl; try discriminate.
  destruct (getProp "x" ps) as [[]|]; try discriminate.
  destruct (getProp "y" ps) as [[]|]; try discriminate.
  destruct (getProp "width" ps) as [[]|] eqn:Ew; try discriminate.
  destruct (getProp "height" ps) as [[]|] eqn:Eh; try discriminate.
  intros [= <-]. exists ps. simpl. auto.
Qed.












(** The sample snapshot in landscape_right: the root and the child with
    a frame are rewritten and annotated, the child with the 0x0 frame and
    the child without a frame are as they were. *)
Example transformElementTree_sample :
  transformElementTree sampleTree landscape_right 844 390
  = Some
      [ JObj [ ("AXFrame", JStr "{{0, 0}, {390, 844}}");
               ("frame", frameObject (mkFrame 0 0 390 844));
               ("type", JStr "Application");
               ("children",
                JArr [ JObj [ ("frame", frameObject (mkFrame 0 0 0 0));
                              ("AXLabel", JStr "hidden") ];
                       JObj [ ("frame", frameObject (mkFrame 20 734 50 100));
                              ("AXLabel", JStr "OK");
                              ("enabled", JBool true);
                              ("AXFrame", JStr "{{20, 734}, {50, 100}}") ];
                       JObj [ ("AXLabel", JNull) ] ]) ] ].
Proof. reflexivity. Qed.

(** A [null] element makes the rewrite throw; numbers, strings and arrays
    are spread into objects. *)
Example transformElementTree_null :
  transformElementTree [JNull] landscape_right 844 390 = None.
Proof. reflexivity. Qed.

Example transformElementTree_primitives :
  transformElementTree [JNum 5; JStr "ab"] landscape_right 844 390
  = Some [JObj []; JObj [("0", JStr "a"); ("1", JStr "b")]].
Proof. reflexivity. Qed.


(* ===================================================================== *)
(** * Properties of the provisioner                                        *)
(* ===================================================================== *)

Lemma nth_error_last_app {A : Type} (pre : list A) (a : A) :
  nth_error (pre ++ [a]) (List.length (pre ++ [a]) - 1) = Some a.
Proof.
  rewrite length_app. simpl.
  replace (List.length pre + 1 - 1)%nat with (List.length pre) by lia.
  rewrite nth_error_app2 by lia.
  rewrite Nat.sub_diag. reflexivity.
Qed.

Lemma pickLatestRuntime_empty (runtimes : list Runtime) :
  filter isAvailableIOS runtimes = [] ->
  pickLatestRuntime runtimes = Throw noRuntimeMessage.
Proof.
  intros E. unfold pickLatestRuntime. rewrite E. reflexivity.
Qed.

Lemma pickLatestRuntime_last (runtimes pre : list Runtime) (r : Runtime) :
  filter isAvailableIOS runtimes = (pre ++ [r])%list ->
  pickLatestRuntime runtimes = Return (rt_identifier r).
Proof.
  intros E. unfold pickLatestRuntime. rewrite E.
  rewrite nth_error_last_app.
  destruct (List.length (pre ++ [r]) =? 0)%nat eqn:L; [|reflexivity].
  apply Nat.eqb_eq in L. rewrite length_app in L. simpl in L. lia.
Qed.

Lemma findLatestRuntime_run (w : World) (st : State) (out : Output)
    (runtimes : list Runtime) :
  w (issued st) listRuntimesCmd = Resolves out ->
  json out = Runtimes runtimes ->
  findLatestRuntime w st
  = (pickLatestRuntime runtimes,
     mkState (managedSimulators st) (issued st ++ [listRuntimesCmd])).
Proof.
  intros Hw Hj. unfold findLatestRuntime, bind, run, lift.
  rewrite Hw, Hj. reflexivity.
Qed.

(** C7. Whatever catalog the runtime listing returns, [findLatestRuntime]
    keeps the entries that are available and are iOS images (their name
    starts with "iOS"), in catalog order; it returns the identifier of the
    last of them, and it fails with the no-runtime error exactly when none
    is left. *)
Theorem findLatestRuntime_last_available :
  forall (w : World) (st : State) (out : Output) (runtimes : list Runtime),
    w (issued st) listRuntimesCmd = Resolves out ->
    json out = Runtimes runtimes ->
    let iosRuntimes := filter isAvailableIOS runtimes in
    (forall pre r, iosRuntimes = (pre ++ [r])%list ->
       fst (findLatestRuntime w st) = Return (rt_identifier r))
    /\ (iosRuntimes = [] <->
        fst (findLatestRuntime w st) = Throw noRuntimeMessage)
    /\ managedSimulators (snd (findLatestRuntime w st)) = managedSimulators st.
Proof.
  intros w st out runtimes Hw Hj iosRuntimes.
  rewrite (findLatestRuntime_run w st out runtimes Hw Hj). simpl.
  split; [|split].
  - intros pre r E. apply (pickLatestRuntime_last runtimes pre r E).
  - split.
    + apply pickLatestRuntime_empty.
    + intros T. subst iosRuntimes.
      destruct (filter isAvailableIOS runtimes) as [|a l] eqn:Q;
        [reflexivity|].
      assert (N : a :: l <> []) by discriminate.
      destruct (exists_last N) as [pre [r E]].
      rewrite E in Q.
      rewrite (pickLatestRuntime_last runtimes pre r Q) in T. discriminate.
  - reflexivity.
Qed.

(* ===================================================================== *)
(** * Properties of the registry                                           *)
(* ===================================================================== *)

#[local] Open Scope list_scope.

Lemma State_eta (st : State) :
  st = mkState (managedSimulators st) (issued st).
Proof. destruct st; reflexivity. Qed.

Lemma mapGet_mapSet_eq (id : string) (v : Sim) (m : Registry) :
  mapGet id (mapSet id v m) = Some v.
Proof.
  induction m as [|[k v'] rest IH]; simpl.
  - rewrite String.eqb_refl. reflexivity.
  - destruct (String.eqb id k) eqn:E; simpl; rewrite E; [reflexivity | exact IH].
Qed.

Lemma mapGet_mapSet_ne (id id' : string) (v : Sim) (m : Registry) :
  id' <> id -> mapGet id' (mapSet id v m) = mapGet id' m.
Proof.
  intros N. apply String.eqb_neq in N.
  induction m as [|[k v'] rest IH]; simpl.
  - rewrite N. reflexivity.
  - destruct (String.eqb id k) eqn:E; simpl.
    + apply String.eqb_eq in E. subst k. rewrite N. reflexivity.
    + rewrite IH. reflexivity.
Qed.

Lemma mapGet_mapDelete_ne (id id' : string) (m : Registry) :
  id' <> id -> mapGet id' (mapDelete id m) = mapGet id' m.
Proof.
  intros N. apply String.eqb_neq in N.
  induction m as [|[k v'] rest IH]; simpl; [reflexivity|].
  destruct (String.eqb id k) eqn:E; simpl.
  - apply String.eqb_eq in E. subst k. rewrite N. reflexivity.
  - rewrite IH. reflexivity.
Qed.

Lemma mapGet_mapDelete_eq (id : string) (m : Registry) :
  uniqueKeys m -> mapGet id (mapDelete id m) = None.
Proof.
  unfold uniqueKeys.
  induction m as [|[k v'] rest IH]; simpl; [reflexivity|].
  intros U. inversion U as [|? ? Nin U']; subst.
  destruct (String.eqb id k) eqn:E; simpl.
  - apply String.eqb_eq in E. subst k.
    destruct (mapGet id rest) eqn:G; [|reflexivity].
    exfalso. apply Nin. clear -G.
    induction rest as [|[k v] rest IH]; simpl in *; [discriminate|].
    destruct (String.eqb id k) eqn:E.
    + left. apply String.eqb_eq in E. symmetry. exact E.
    + right. apply IH, G.
  - rewrite E. apply IH, U'.
Qed.

(* ===================================================================== *)
(** * Properties of the shutdown sweeper                                   *)
(* ===================================================================== *)

Lemma cleanupOne_run (w : World) (st : State) (e : string * Sim) :
  cleanupOne e w st
  = (Return tt,
     mkState (managedSimulators st) (issued st ++ teardownCommands [e])%list).
Proof.
  destruct e as [id s]. unfold cleanupOne, teardownCommands. simpl.
  destruct (owned s); simpl.
  - unfold bind, tryCatch, run, ret. simpl.
    destruct (w (issued st) (shutdownCmd (udid s))); simpl;
      destruct (w (issued st ++ [shutdownCmd (udid s)])%list (deleteCmd (udid s)));
      simpl; rewrite <- app_assoc; reflexivity.
  - unfold ret. rewrite app_nil_r. rewrite <- State_eta. reflexivity.
Qed.

Lemma teardownCommands_app (a b : Registry) :
  teardownCommands (a ++ b) = (teardownCommands a ++ teardownCommands b)%list.
Proof. unfold teardownCommands. apply flat_map_app. Qed.

Lemma forEach_cleanupOne_run (w : World) (l : Registry) :
  forall st,
    forEach cleanupOne l w st
    = (Return tt,
       mkState (managedSimulators st) (issued st ++ teardownCommands l)%list).
Proof.
  induction l as [|e rest IH]; intros st; cbn [forEach].
  - unfold ret. cbn [teardownCommands flat_map].
    rewrite app_nil_r, <- State_eta. reflexivity.
  - unfold bind. rewrite cleanupOne_run. rewrite IH.
    cbn [managedSimulators issued].
    rewrite <- app_assoc.
    change (e :: rest) with ([e] ++ rest).
    rewrite teardownCommands_app. reflexivity.
Qed.

Lemma teardownCommands_In (m : Registry) (c : Cmd) :
  In c (teardownCommands m) <->
  exists id s, In (id, s) m /\ owned s = true
               /\ (c = shutdownCmd (udid s) \/ c = deleteCmd (udid s)).
Proof.
  unfold teardownCommands. rewrite in_flat_map. split.
  - intros [[id s] [I Hc]]. simpl in Hc. exists id, s.
    destruct (owned s); simpl in Hc; [|contradiction].
    split; [exact I|]. split; [reflexivity|].
    destruct Hc as [<-|[<-|[]]]; auto.
  - intros [id [s [I [O Hc]]]]. exists (id, s). split; [exact I|].
    simpl. rewrite O. simpl. destruct Hc as [->| ->]; auto.
Qed.

Example sweeper_three_sessions :
  cleanupAllSimulators (sampleWorld [shutdownCmd sampleUdid]) threeSessions
  = (Return tt,
     mkState [] [ shutdownCmd sampleUdid; deleteCmd sampleUdid;
                  shutdownCmd thirdUdid; deleteCmd thirdUdid ]).
Proof. reflexivity. Qed.

(** C6. Whatever the registry holds and however the world answers, the
    sweeper sends, in registry order, a shutdown followed by a delete for
    each handle with [owned = true] and nothing else: every command it
    sends comes from an owned handle, every owned handle gets both, a
    handle with [owned = false] adds no command; and the registry is empty
    afterwards. *)
Theorem cleanupAllSimulators_owned_only :
  forall (w : World) (st : State),
    let st' := snd (cleanupAllSimulators w st) in
    let sent := teardownCommands (managedSimulators st) in
    fst (cleanupAllSimulators w st) = Return tt
    /\ managedSimulators st' = []
    /\ issued st' = (issued st ++ sent)%list
    /\ (forall c, In c sent ->
          exists id s, In (id, s) (managedSimulators st) /\ owned s = true
                       /\ (c = shutdownCmd (udid s) \/ c = deleteCmd (udid s)))
    /\ (forall id s, In (id, s) (managedSimulators st) -> owned s = true ->
          In (shutdownCmd (udid s)) sent /\ In (deleteCmd (udid s)) sent)
    /\ (forall before id s after,
          managedSimulators st = (before ++ (id, s) :: after)%list ->
          owned s = false ->
          sent = (teardownCommands before ++ teardownCommands after)%list).
Proof.
  intros w st st' sent. subst st'.
  unfold cleanupAllSimulators, bind, entries, clearSims.
  rewrite forEach_cleanupOne_run. simpl.
  repeat split; try reflexivity.
  - intros c I. apply teardownCommands_In, I.
  - apply teardownCommands_In. exists id, s. auto.
  - apply teardownCommands_In. exists id, s. auto.
  - intros before id s after E O. subst sent. rewrite E.
    rewrite teardownCommands_app.
    change ((id, s) :: after) with ([(id, s)] ++ after)%list.
    rewrite teardownCommands_app.
    unfold teardownCommands at 2. simpl. rewrite O. reflexivity.
Qed.

(* ===================================================================== *)
(** * Properties of the input schema of attach_simulator                   *)
(* ===================================================================== *)

Lemma hexRun_sound (n : nat) :
  forall s rest, hexRun n s = Some rest ->
    exists g, s = (g ++ rest)%string /\ hexString n g.
Proof.
  induction n as [|n IH]; simpl; intros s rest E.
  - injection E as <-. exists ""%string. split; [reflexivity|].
    split; [reflexivity | intros c []].
  - destruct s as [|c s']; [discriminate|].
    destruct (isHex c) eqn:Hc; [|discriminate].
    destruct (IH s' rest E) as [g [-> [L A]]].
    exists (String c g). split; [reflexivity|].
    split; [simpl; congruence|].
    intros c0 [<-|I]; [exact Hc | apply A, I].
Qed.

Lemma hexRun_complete (n : nat) :
  forall g rest, hexString n g -> hexRun n (g ++ rest)%string = Some rest.
Proof.
  induction n as [|n IH]; intros g rest [L A].
  - destruct g; [reflexivity | discriminate].
  - destruct g as [|c g]; [discriminate|]. simpl.
    rewrite (A c) by (left; reflexivity).
    apply IH. split; [simpl in L; congruence|].
    intros c0 I. apply A. right. exact I.
Qed.

Lemma dash_sound (s rest : string) :
  dash s = Some rest -> s = ("-" ++ rest)%string.
Proof.
  destruct s as [|c s']; simpl; [discriminate|].
  destruct (Ascii.eqb c "-") eqn:E; [|discriminate].
  apply Ascii.eqb_eq in E. subst c. intros [= ->]. reflexivity.
Qed.

(** The pattern accepts exactly the strings of the canonical form. *)
Lemma udidRegex_canonical (s : string) :
  udidRegex s = true <-> canonicalUdid s.
Proof.
  unfold udidRegex, canonicalUdid, andThen. split.
  - destruct (hexRun 8 s) as [s1|] eqn:E1; [|discriminate].
    destruct (dash s1) as [s2|] eqn:D1; [|discriminate].
    destruct (hexRun 4 s2) as [s3|] eqn:E2; [|discriminate].
    destruct (dash s3) as [s4|] eqn:D2; [|discriminate].
    destruct (hexRun 4 s4) as [s5|] eqn:E3; [|discriminate].
    destruct (dash s5) as [s6|] eqn:D3; [|discriminate].
    destruct (hexRun 4 s6) as [s7|] eqn:E4; [|discriminate].
    destruct (dash s7) as [s8|] eqn:D4; [|discriminate].
    destruct (hexRun 12 s8) as [[|c r]|] eqn:E5; try discriminate.
    intros _.
    apply hexRun_sound in E1, E2, E3, E4, E5.
    apply dash_sound in D1, D2, D3, D4.
    destruct E1 as [a [-> Ha]]. destruct E2 as [b [-> Hb]].
    destruct E3 as [c [-> Hc]]. destruct E4 as [d [-> Hd]].
    destruct E5 as [e [-> He]]. subst.
    exists a, b, c, d, e.
    split; [|auto 6].
    replace (e ++ "")%string with e; [reflexivity|].
    clear. induction e as [|ch e IH]; simpl; [reflexivity | congruence].
  - intros [a [b [c [d [e [-> [Ha [Hb [Hc [Hd He]]]]]]]]]].
    assert (D : forall t, dash ("-" ++ t)%string = Some t) by reflexivity.
    rewrite (hexRun_complete 8 a _ Ha), D.
    rewrite (hexRun_complete 4 b _ Hb), D.
    rewrite (hexRun_complete 4 c _ Hc), D.
    rewrite (hexRun_complete 4 d _ Hd), D.
    replace e with (e ++ "")%string at 1.
    + rewrite (hexRun_complete 12 e _ He). reflexivity.
    + clear. induction e as [|ch e IH]; simpl; [reflexivity | congruence].
Qed.

Example udid_accepted : udidRegex sampleUdid = true.
Proof. reflexivity. Qed.

Example udid_keyword_refused : udidRegex "booted" = false.
Proof. reflexivity. Qed.

Example udid_trailing_refused : udidRegex (sampleUdid ++ "0")%string = false.
Proof. reflexivity. Qed.

Lemma attach_simulator_invalid (id u : string) (w : World) (st : State) :
  udidRegex u = false ->
  attach_simulator id u w st = (InvalidArguments, st).
Proof.
  intros R. unfold attach_simulator. rewrite R, andb_false_r. reflexivity.
Qed.

(** C10. A call of attach_simulator whose udid is not of the canonical
    form, five groups of 8, 4, 4, 4 and 12 hexadecimal digits joined by
    dashes, is refused when its arguments are parsed: the answer is the
    input error and not a handler result, no command has been sent (the
    device list is not queried) and the registry is as it was. *)
Theorem attach_simulator_rejects_malformed_udid :
  forall (id u : string) (w : World) (st : State),
    ~ canonicalUdid u ->
    attach_simulator id u w st = (InvalidArguments, st)
    /\ issued (snd (attach_simulator id u w st)) = issued st
    /\ managedSimulators (snd (attach_simulator id u w st))
       = managedSimulators st.
Proof.
  intros id u w st N.
  assert (R : udidRegex u = false).
  { destruct (udidRegex u) eqn:R; [|reflexivity].
    exfalso. apply N, udidRegex_canonical, R. }
  rewrite (attach_simulator_invalid id u w st R). auto.
Qed.

(** The device list is queried for well-formed udids only. *)
Lemma attach_simulator_queries_only_canonical :
  forall (id u : string) (w : World) (st : State),
    issued (snd (attach_simulator id u w st)) <> issued st ->
    canonicalUdid u.
Proof.
  intros id u w st N. apply udidRegex_canonical.
  destruct (udidRegex u) eqn:R; [reflexivity|].
  exfalso. apply N.
  rewrite (attach_simulator_invalid id u w st R). reflexivity.
Qed.

(* ===================================================================== *)
(** * Properties of the lifecycle handlers                                 *)
(* ===================================================================== *)

Lemma run_resolves (w : World) (st : State) (c : Cmd) (out : Output) :
  w (issued st) c = Resolves out ->
  run c w st = (Return out, mkState (managedSimulators st) (issued st ++ [c])).
Proof. intros E. unfold run. rewrite E. reflexivity. Qed.

Lemma run_rejects (w : World) (st : State) (c : Cmd) (e : string) :
  w (issued st) c = Rejects e ->
  run c w st = (Throw e, mkState (managedSimulators st) (issued st ++ [c])).
Proof. intros E. unfold run. rewrite E. reflexivity. Qed.

Lemma findDeviceType_run (w : World) (st : State) (keyword : string)
    (out : Output) (deviceTypes : list DeviceType) :
  w (issued st) listDeviceTypesCmd = Resolves out ->
  json out = DeviceTypes deviceTypes ->
  findDeviceType keyword w st
  = (pickDeviceType keyword deviceTypes,
     mkState (managedSimulators st) (issued st ++ [listDeviceTypesCmd])).
Proof.
  intros Hw Hj. unfold findDeviceType, bind, run, lift.
  rewrite Hw, Hj. reflexivity.
Qed.

Example pickDeviceType_first_match :
  pickDeviceType "iphone" sampleDeviceTypes
  = Return (mkDeviceType "iPhone 16 Pro"
              "com.apple.CoreSimulator.SimDeviceType.iPhone-16-Pro").
Proof. reflexivity. Qed.

(** An active session makes [start_simulator] fail at once. *)
Lemma start_simulator_active (w : World) (st : State) (id : string)
    (type : option string) (existing : Sim) :
  mapGet id (managedSimulators st) = Some existing ->
  start_simulator id type w st
  = (mkResult true
       (errorWithTroubleshooting
          ("Error starting simulator: " ++ alreadyRunningMessage id existing)%string),
     st).
Proof.
  intros G. unfold start_simulator, handler, start_body, bind, getSim, throw.
  rewrite G. reflexivity.
Qed.

(** The run of [start_simulator] on an absent session, step by step. *)
Lemma start_simulator_steps (w : World) (st : State) (id : string)
    (type : option string)
    (o1 o2 o3 o4 : Output) (dts : list DeviceType) (dt : DeviceType)
    (rts : list Runtime) (rt : string) :
  let keyword := keywordOf type in
  let deviceName := deviceNameOf id keyword in
  let create := createCmd deviceName (dt_identifier dt) rt in
  let u := stdout o3 in
  let log := issued st in
  mapGet id (managedSimulators st) = None ->
  w log listDeviceTypesCmd = Resolves o1 ->
  json o1 = DeviceTypes dts ->
  pickDeviceType keyword dts = Return dt ->
  w (log ++ [listDeviceTypesCmd]) listRuntimesCmd = Resolves o2 ->
  json o2 = Runtimes rts ->
  pickLatestRuntime rts = Return rt ->
  w (log ++ [listDeviceTypesCmd; listRuntimesCmd]) create = Resolves o3 ->
  w (log ++ [listDeviceTypesCmd; listRuntimesCmd; create]) (bootCmd u)
    = Resolves o4 ->
  let log' := log ++ [listDeviceTypesCmd; listRuntimesCmd; create; bootCmd u] in
  start_simulator id type w st
  = match w log' openSimulatorCmd with
    | Resolves _ =>
        (mkResult false
           ("Simulator started: " ++ dq ++ deviceName ++ dq ++ " ("
            ++ dt_name dt ++ ", " ++ u ++ ")")%string,
         mkState (mapSet id (mkSim u deviceName true auto) (managedSimulators st))
                 (log' ++ [openSimulatorCmd]))
    | Rejects e =>
        (mkResult true
           (errorWithTroubleshooting ("Error starting simulator: " ++ e)%string),
         mkState (managedSimulators st) (log' ++ [openSimulatorCmd]))
    end.
Proof.
  intros keyword deviceName create u log Habs H1 J1 P1 H2 J2 P2 H3 H4 log'.
  unfold start_simulator, handler, start_body, bind, getSim.
  rewrite Habs.
  rewrite (findDeviceType_run w st _ o1 dts H1 J1).
  fold keyword. rewrite P1. cbv beta iota.
  rewrite (findLatestRuntime_run w
             (mkState (managedSimulators st) (issued st ++ [listDeviceTypesCmd]))
             o2 rts H2 J2).
  rewrite P2. cbv beta iota. cbn [issued managedSimulators].
  fold deviceName. fold create. fold log.
  rewrite (run_resolves w _ create o3)
    by (cbn [issued]; rewrite <- app_assoc; exact H3).
  cbv beta iota. cbn [issued managedSimulators]. fold u.
  rewrite (run_resolves w _ (bootCmd u) o4)
    by (cbn [issued]; rewrite <- !app_assoc; exact H4).
  cbv beta iota. cbn [issued managedSimulators].
  unfold run, setSim, ret. cbn [issued managedSimulators].
  replace ((((log ++ [listDeviceTypesCmd]) ++ [listRuntimesCmd]) ++ [create])
           ++ [bootCmd u]) with log' by (subst log'; rewrite <- !app_assoc; reflexivity).
  destruct (w log' openSimulatorCmd); reflexivity.
Qed.

Example start_simulator_sample :
  start_simulator "s1" None (sampleWorld []) emptyState
  = (mkResult false
       ("Simulator started: " ++ dq ++ "s1_iphone" ++ dq
        ++ " (iPhone 16 Pro, " ++ sampleUdid ++ ")")%string,
     mkState [("s1", mkSim sampleUdid "s1_iphone" true auto)]
       [ listDeviceTypesCmd; listRuntimesCmd;
         createCmd "s1_iphone"
           "com.apple.CoreSimulator.SimDeviceType.iPhone-16-Pro"
           "com.apple.CoreSimulator.SimRuntime.iOS-18-2";
         bootCmd sampleUdid; openSimulatorCmd ]).
Proof. reflexivity. Qed.

(** C3, as the code has it.  On an absent session for which the two
    catalog look-ups, the create and the boot succeed, the outcome of
    [start_simulator] is decided by the "open Simulator.app" step: when it
    succeeds the handle (udid, name, owned, auto) is registered and success
    reported; when it fails the call reports that error and the registry
    is left without an entry for the session. *)
Theorem start_simulator_foreground_decides :
  forall (w : World) (st : State) (id : string) (type : option string)
         (o1 o2 o3 o4 : Output) (dts : list DeviceType) (dt : DeviceType)
         (rts : list Runtime) (rt : string),
    let keyword := keywordOf type in
    let deviceName := deviceNameOf id keyword in
    let create := createCmd deviceName (dt_identifier dt) rt in
    let u := stdout o3 in
    let log := issued st in
    mapGet id (managedSimulators st) = None ->
    w log listDeviceTypesCmd = Resolves o1 ->
    json o1 = DeviceTypes dts ->
    pickDeviceType keyword dts = Return dt ->
    w (log ++ [listDeviceTypesCmd]) listRuntimesCmd = Resolves o2 ->
    json o2 = Runtimes rts ->
    pickLatestRuntime rts = Return rt ->
    w (log ++ [listDeviceTypesCmd; listRuntimesCmd]) create = Resolves o3 ->
    w (log ++ [listDeviceTypesCmd; listRuntimesCmd; create]) (bootCmd u)
      = Resolves o4 ->
    let log' := log ++ [listDeviceTypesCmd; listRuntimesCmd; create; bootCmd u] in
    let r := start_simulator id type w st in
    (forall o5, w log' openSimulatorCmd = Resolves o5 ->
       isError (fst r) = false
       /\ mapGet id (managedSimulators (snd r))
          = Some (mkSim u deviceName true auto))
    /\ (forall e, w log' openSimulatorCmd = Rejects e ->
          fst r = mkResult true
                    (errorWithTroubleshooting
                       ("Error starting simulator: " ++ e)%string)
          /\ managedSimulators (snd r) = managedSimulators st
          /\ mapGet id (managedSimulators (snd r)) = None).
Proof.
  intros w st id type o1 o2 o3 o4 dts dt rts rt
         keyword deviceName create u log Habs H1 J1 P1 H2 J2 P2 H3 H4 log' r.
  subst r.
  rewrite (start_simulator_steps w st id type o1 o2 o3 o4 dts dt rts rt
             Habs H1 J1 P1 H2 J2 P2 H3 H4).
  fold keyword deviceName create u log log'.
  split.
  - intros o5 E. rewrite E. cbn [fst snd isError managedSimulators].
    split; [reflexivity | apply mapGet_mapSet_eq].
  - intros e E. rewrite E. cbn [fst snd managedSimulators].
    split; [reflexivity|]. split; [reflexivity | exact Habs].
Qed.

(** ** What each handler may do to the registry *)

(** Case analysis on every scrutinee that is free of case analyses,
    innermost first, reducing after each step. *)
Ltac crunch :=
  cbv beta iota;
  repeat match goal with
         | |- context [match ?x with _ => _ end] =>
             lazymatch x with
             | context [match _ with _ => _ end] => fail
             | _ => destruct x eqn:?
             end;
             cbv beta iota; cbn [fst snd isError managedSimulators issued]
         end.

Lemma start_simulator_registry (w : World) (st : State) (id : string)
    (type : option string) :
  managedSimulators (snd (start_simulator id type w st)) = managedSimulators st
  \/ (mapGet id (managedSimulators st) = None
      /\ isError (fst (start_simulator id type w st)) = false
      /\ exists u,
           managedSimulators (snd (start_simulator id type w st))
           = mapSet id (mkSim u (deviceNameOf id (keywordOf type)) true auto)
               (managedSimulators st)).
Proof.
  unfold start_simulator, handler, start_body, findDeviceType,
    findLatestRuntime.
  unfold bind, getSim, run, lift, throw, ret, setSim.
  crunch; try (left; reflexivity).
  all: right; split; [reflexivity|]; split; [reflexivity|]; eexists; reflexivity.
Qed.

Lemma attach_handler_registry (w : World) (st : State) (id u : string) :
  managedSimulators (snd (attach_handler id u w st)) = managedSimulators st
  \/ (mapGet id (managedSimulators st) = None
      /\ exists v, managedSimulators (snd (attach_handler id u w st))
                   = mapSet id v (managedSimulators st)).
Proof.
  unfold attach_handler, handler, attach_body.
  unfold bind, getSim, run, throw, ret, setSim.
  crunch; try (left; reflexivity).
  all: right; split; [reflexivity|]; eexists; reflexivity.
Qed.

Lemma destroy_simulator_registry (w : World) (st : State) (id : string) :
  managedSimulators (snd (destroy_simulator id w st)) = managedSimulators st
  \/ managedSimulators (snd (destroy_simulator id w st))
     = mapDelete id (managedSimulators st).
Proof.
  unfold destroy_simulator, handler, destroy_body.
  unfold bind, getSim, run, throw, ret, deleteSim.
  crunch; try (left; reflexivity); right; reflexivity.
Qed.

Lemma set_rotation_coords_registry (w : World) (st : State) (id : string)
    (o : Orientation) :
  managedSimulators (snd (set_rotation_coords id o w st)) = managedSimulators st
  \/ exists s, mapGet id (managedSimulators st) = Some s
       /\ managedSimulators (snd (set_rotation_coords id o w st))
          = mapSet id (mkSim (udid s) (name s) (owned s) o)
              (managedSimulators st).
Proof.
  unfold set_rotation_coords, set_rotation_body.
  unfold bind, getSim, throw, ret, setSim.
  crunch; try (left; reflexivity).
  right. eexists. split; reflexivity.
Qed.

Lemma sameInstance_refl (a : Sim) : sameInstance a a.
Proof. repeat split. Qed.

Lemma sameInstance_trans (a b c : Sim) :
  sameInstance a b -> sameInstance b c -> sameInstance a c.
Proof.
  unfold sameInstance. intros [? [? ?]] [? [? ?]].
  repeat split; congruence.
Qed.

(** A call that is not a destroy of session [id] leaves the session
    active, on the same instance. *)
Lemma perform_keeps_session (w : World) (st : State) (id : string)
    (c : Call) (s : Sim) :
  destroys id c = false ->
  mapGet id (managedSimulators st) = Some s ->
  exists s', mapGet id (managedSimulators (perform c w st)) = Some s'
             /\ sameInstance s s'.
Proof.
  intros D G. destruct c as [id' type | id' u | id' | id' o]; simpl in *.
  - destruct (start_simulator_registry w st id' type) as [E | [N [_ [u E]]]];
      rewrite E.
    + exists s. split; [exact G | apply sameInstance_refl].
    + exists s. split; [|apply sameInstance_refl].
      rewrite mapGet_mapSet_ne; [exact G | congruence].
  - destruct (attach_handler_registry w st id' u) as [E | [N [v E]]];
      rewrite E.
    + exists s. split; [exact G | apply sameInstance_refl].
    + exists s. split; [|apply sameInstance_refl].
      rewrite mapGet_mapSet_ne; [exact G | congruence].
  - apply String.eqb_neq in D.
    destruct (destroy_simulator_registry w st id') as [E | E]; rewrite E.
    + exists s. split; [exact G | apply sameInstance_refl].
    + exists s. split; [|apply sameInstance_refl].
      rewrite mapGet_mapDelete_ne; [exact G | exact D].
  - destruct (set_rotation_coords_registry w st id' o) as [E | [s0 [G0 E]]];
      rewrite E.
    + exists s. split; [exact G | apply sameInstance_refl].
    + destruct (String.eqb id id') eqn:Q.
      * apply String.eqb_eq in Q. subst id'.
        rewrite G in G0. injection G0 as <-.
        eexists. split; [apply mapGet_mapSet_eq | repeat split].
      * apply String.eqb_neq in Q.
        exists s. split; [|apply sameInstance_refl].
        rewrite mapGet_mapSet_ne; [exact G | exact Q].
Qed.

Lemma performAll_keeps_session (w : World) (id : string) (calls : list Call) :
  existsb (destroys id) calls = false ->
  forall (st : State) (s : Sim),
    mapGet id (managedSimulators st) = Some s ->
    exists s', mapGet id (managedSimulators (performAll calls w st)) = Some s'
               /\ sameInstance s s'.
Proof.
  induction calls as [|c rest IH]; simpl; intros D st s G.
  - exists s. split; [exact G | apply sameInstance_refl].
  - apply orb_false_iff in D. destruct D as [Dc Dr].
    destruct (perform_keeps_session w st id c s Dc G) as [s1 [G1 S1]].
    destruct (IH Dr _ s1 G1) as [s2 [G2 S2]].
    exists s2. split; [exact G2 | apply (sameInstance_trans _ _ _ S1 S2)].
Qed.

Lemma string_app_assoc (a b c : string) :
  ((a ++ b) ++ c)%string = (a ++ (b ++ c))%string.
Proof. induction a as [|ch a IH]; simpl; [reflexivity | rewrite IH; reflexivity]. Qed.

Lemma alreadyRunningMessage_mentions (id : string) (existing : Sim) :
  mentions (name existing) (alreadyRunningMessage id existing)
  /\ mentions (udid existing) (alreadyRunningMessage id existing).
Proof.
  unfold mentions, alreadyRunningMessage. split.
  - exists ("A simulator is already running for session " ++ dq ++ id ++ dq
            ++ ": " ++ dq)%string.
    eexists. rewrite !string_app_assoc. reflexivity.
  - exists ("A simulator is already running for session " ++ dq ++ id ++ dq
            ++ ": " ++ dq ++ name existing ++ dq ++ " (")%string.
    eexists. rewrite !string_app_assoc. reflexivity.
Qed.

(** C5. After a [start_simulator] of session [id] that succeeded, and
    whatever lifecycle calls follow as long as none of them is a destroy of
    [id], the session still holds the instance the first start created
    (same udid, same name, owned; the very same handle when the second
    start follows at once), and a second [start_simulator] of [id]
    fails with the already-running error, whose text mentions that name and
    that udid; the failed call sends no command and changes nothing. *)
Theorem start_simulator_twice :
  forall (w : World) (st : State) (id : string) (type type' : option string)
         (calls : list Call),
    isError (fst (start_simulator id type w st)) = false ->
    existsb (destroys id) calls = false ->
    let st1 := snd (start_simulator id type w st) in
    let st2 := performAll calls w st1 in
    exists first current,
      mapGet id (managedSimulators st1) = Some first
      /\ owned first = true /\ orientation first = auto
      /\ mapGet id (managedSimulators st2) = Some current
      /\ sameInstance first current
      /\ (calls = [] -> current = first)
      /\ start_simulator id type' w st2
         = (mkResult true
              (errorWithTroubleshooting
                 ("Error starting simulator: "
                  ++ alreadyRunningMessage id current)%string),
            st2)
      /\ mentions (name first) (alreadyRunningMessage id current)
      /\ mentions (udid first) (alreadyRunningMessage id current).
Proof.
  intros w st id type type' calls Ok ND st1 st2.
  destruct (start_simulator_registry w st id type) as [E | [N [_ [u E]]]].
  - (* the registry did not change: the first call cannot have succeeded *)
    exfalso. clear -Ok E.
    destruct (mapGet id (managedSimulators st)) as [existing|] eqn:G.
    + rewrite (start_simulator_active w st id type existing G) in Ok.
      discriminate.
    + revert Ok E.
      unfold start_simulator, handler, start_body, findDeviceType,
        findLatestRuntime.
      unfold bind, getSim, run, lift, throw, ret, setSim.
      rewrite G. crunch; try discriminate.
      intros _ E.
      assert (F : mapGet id (managedSimulators st) <> None).
      { rewrite <- E. rewrite mapGet_mapSet_eq. discriminate. }
      apply F, G.
  - set (first := mkSim u (deviceNameOf id (keywordOf type)) true auto) in *.
    assert (G1 : mapGet id (managedSimulators st1) = Some first).
    { subst st1. rewrite E. apply mapGet_mapSet_eq. }
    destruct (performAll_keeps_session w id calls ND st1 first G1)
      as [current [G2 S]].
    exists first, current.
    split; [exact G1|]. split; [reflexivity|]. split; [reflexivity|].
    split; [exact G2|]. split; [exact S|].
    split.
    { intros ->. subst st2. simpl in G2. rewrite G1 in G2.
      injection G2 as <-. reflexivity. }
    split; [apply (start_simulator_active w st2 id type' current G2)|].
    destruct S as [Su [Sn _]]. rewrite Su, Sn.
    apply alreadyRunningMessage_mentions.
Qed.

Lemma destroy_simulator_shutdown_fails (w : World) (st : State) (id : string)
    (s : Sim) (e : string) :
  mapGet id (managedSimulators st) = Some s ->
  owned s = true ->
  w (issued st) (shutdownCmd (udid s)) = Rejects e ->
  destroy_simulator id w st
  = (mkResult true
       (errorWithTroubleshooting ("Error destroying simulator: " ++ e)%string),
     mkState (managedSimulators st) (issued st ++ [shutdownCmd (udid s)])).
Proof.
  intros G O R.
  unfold destroy_simulator, handler, destroy_body.
  unfold bind, getSim, throw, ret, deleteSim.
  rewrite G, O. rewrite (run_rejects w st _ e R). reflexivity.
Qed.

Lemma destroy_simulator_teardown_succeeds (w : World) (st : State)
    (id : string) (s : Sim) (o1 o2 : Output) :
  mapGet id (managedSimulators st) = Some s ->
  owned s = true ->
  w (issued st) (shutdownCmd (udid s)) = Resolves o1 ->
  w (issued st ++ [shutdownCmd (udid s)]) (deleteCmd (udid s)) = Resolves o2 ->
  destroy_simulator id w st
  = (mkResult false
       ("Simulator destroyed: " ++ dq ++ name s ++ dq ++ " (" ++ udid s ++ ")")%string,
     mkState (mapDelete id (managedSimulators st))
             (issued st ++ [shutdownCmd (udid s); deleteCmd (udid s)])).
Proof.
  intros G O R1 R2.
  unfold destroy_simulator, handler, destroy_body.
  unfold bind, getSim, throw, ret, deleteSim.
  rewrite G, O. rewrite (run_resolves w st _ o1 R1).
  cbv beta iota.
  rewrite (run_resolves w
             (mkState (managedSimulators st)
                      (issued st ++ [shutdownCmd (udid s)])) _ o2 R2).
  cbn [managedSimulators issued]. rewrite <- app_assoc. reflexivity.
Qed.

Lemma destroy_simulator_detaches (w : World) (st : State) (id : string)
    (s : Sim) :
  mapGet id (managedSimulators st) = Some s ->
  owned s = false ->
  destroy_simulator id w st
  = (mkResult false
       ("Detached from simulator: " ++ dq ++ name s ++ dq ++ " (" ++ udid s ++ ")")%string,
     mkState (mapDelete id (managedSimulators st)) (issued st)).
Proof.
  intros G O.
  unfold destroy_simulator, handler, destroy_body.
  unfold bind, getSim, throw, ret, deleteSim.
  rewrite G, O. reflexivity.
Qed.

(** C1, on the code.  One owned session whose simulator refuses to shut
    down (it is shut down already, say): [destroy_simulator] reports the
    error, does not attempt the delete, and the session is still in the
    registry; the sweeper, on the same state and in the same world,
    empties the registry. *)
Theorem destroy_simulator_stuck_session :
  let w := sampleWorld [shutdownCmd sampleUdid] in
  let r := destroy_simulator "s1" w oneOwned in
  isError (fst r) = true
  /\ mapGet "s1" (managedSimulators (snd r))
     = Some (mkSim sampleUdid "s1_iphone" true auto)
  /\ issued (snd r) = [shutdownCmd sampleUdid]
  /\ managedSimulators (snd (cleanupAllSimulators w oneOwned)) = [].
Proof. repeat split. Qed.

(** C2, as stated, fails: session s1 starts a simulator, and session s2
    then attaches to the very same udid; the attach succeeds and both
    sessions map to that udid. *)
Lemma attach_simulator_duplicate_instance :
  let w := sampleWorld [] in
  let st1 := snd (start_simulator "s1" None w emptyState) in
  let r := attach_simulator "s2" sampleUdid w st1 in
  "s1"%string <> "s2"%string
  /\ option_map udid (mapGet "s1" (managedSimulators st1)) = Some sampleUdid
  /\ fst r = Result (mkResult false
                       ("Attached to simulator: " ++ dq ++ "s1_iphone" ++ dq
                        ++ " (" ++ sampleUdid ++ ")")%string)
  /\ option_map udid (mapGet "s1" (managedSimulators (snd r))) = Some sampleUdid
  /\ option_map udid (mapGet "s2" (managedSimulators (snd r))) = Some sampleUdid.
Proof.
  split; [discriminate|]. repeat split.
Qed.

(** C2, as the code has it.  The registry is keyed by session id and
    nothing compares instance ids: an attach of a well-formed udid that the
    device list shows as booted succeeds for any absent session id, inserts
    (udid, observed name, not owned, auto) and leaves every other entry
    as it was, also an entry with the same udid; it is refused only when
    the session id itself is already present. *)
Theorem attach_simulator_checks_session_only :
  forall (w : World) (st : State) (id u : string) (out : Output)
         (devices : list (list Device)) (found : Device),
    sessionIdSchema id = true ->
    udidRegex u = true ->
    w (issued st) listDevicesCmd = Resolves out ->
    json out = Devices devices ->
    findDevice u devices = Some found ->
    dev_state found = "Booted"%string ->
    let handle := mkSim u (dev_name found) false auto in
    let registry' := mapSet id handle (managedSimulators st) in
    (mapGet id (managedSimulators st) = None ->
       attach_simulator id u w st
       = (Result (mkResult false
                    ("Attached to simulator: " ++ dq ++ dev_name found ++ dq
                     ++ " (" ++ u ++ ")")%string),
          mkState registry' (issued st ++ [listDevicesCmd]))
       /\ mapGet id registry' = Some handle
       /\ forall id', id' <> id ->
            mapGet id' registry' = mapGet id' (managedSimulators st))
    /\ (forall existing, mapGet id (managedSimulators st) = Some existing ->
          attach_simulator id u w st
          = (Result (mkResult true
                       (errorWithTroubleshooting
                          ("Error attaching to simulator: "
                           ++ alreadyAttachedMessage id existing)%string)),
             st)).
Proof.
  intros w st id u out devices found Sid Su Hw Hj Hf Hb handle registry'.
  unfold attach_simulator. rewrite Sid, Su. cbn [andb].
  unfold attach_handler, handler, attach_body.
  unfold bind, getSim, throw, ret, setSim.
  split.
  - intros G. rewrite G. rewrite (run_resolves w st _ out Hw).
    cbv beta iota. rewrite Hj, Hf, Hb. cbn [String.eqb negb].
    split; [reflexivity|].
    split; [apply mapGet_mapSet_eq|].
    intros id' N. apply mapGet_mapSet_ne, N.
  - intros existing G. rewrite G. reflexivity.
Qed.

Lemma attach_simulator_checks_session_only_witness :
  sessionIdSchema "s2" = true
  /\ udidRegex sampleUdid = true
  /\ attach_simulator "s2" sampleUdid (sampleWorld []) oneOwned
     = (Result (mkResult false
                  ("Attached to simulator: " ++ dq ++ "s1_iphone" ++ dq
                   ++ " (" ++ sampleUdid ++ ")")%string),
        mkState [ ("s1", mkSim sampleUdid "s1_iphone" true auto);
                  ("s2", mkSim sampleUdid "s1_iphone" false auto) ]
                [listDevicesCmd]).
Proof.
  split; [reflexivity|]. split; [reflexivity|].
  apply (proj1 (attach_simulator_checks_session_only
                  (sampleWorld []) oneOwned "s2" sampleUdid devicesOutput
                  sampleDevices (mkDevice sampleUdid "s1_iphone" "Booted")
                  eq_refl eq_refl eq_refl eq_refl eq_refl eq_refl)
               eq_refl).
Defined.

(** C3, as stated, fails: the catalogs answer, create and boot succeed,
    opening Simulator.app fails; the call reports an error and session s1
    is not registered. *)
Lemma start_simulator_foreground_failure :
  let w := sampleWorld [openSimulatorCmd] in
  let r := start_simulator "s1" None w emptyState in
  mapGet "s1" (managedSimulators emptyState) = None
  /\ issued (snd r)
     = [ listDeviceTypesCmd; listRuntimesCmd;
         createCmd "s1_iphone"
           "com.apple.CoreSimulator.SimDeviceType.iPhone-16-Pro"
           "com.apple.CoreSimulator.SimRuntime.iOS-18-2";
         bootCmd sampleUdid; openSimulatorCmd ]
  /\ (forall log c, c <> openSimulatorCmd -> In c (issued (snd r)) ->
        exists out, w log c = Resolves out)
  /\ isError (fst r) = true
  /\ mapGet "s1" (managedSimulators (snd r)) = None.
Proof.
  split; [reflexivity|]. split; [reflexivity|].
  split; [|split; reflexivity].
  intros log c N I. simpl in I.
  destruct I as [<-|[<-|[<-|[<-|[<-|[]]]]]]; try (eexists; reflexivity).
  exfalso. apply N. reflexivity.
Qed.

Lemma start_simulator_foreground_decides_witness :
  mapGet "s1" (managedSimulators emptyState) = None
  /\ fst (start_simulator "s1" None (sampleWorld [openSimulatorCmd]) emptyState)
     = mkResult true
         (errorWithTroubleshooting
            ("Error starting simulator: " ++ "Command failed")%string)
  /\ isError (fst (start_simulator "s1" None (sampleWorld []) emptyState))
     = false.
Proof.
  split; [reflexivity|]. split.
  - apply (proj2 (start_simulator_foreground_decides
                    (sampleWorld [openSimulatorCmd]) emptyState "s1" None
                    deviceTypesOutput runtimesOutput createOutput silentOutput
                    sampleDeviceTypes
                    (mkDeviceType "iPhone 16 Pro"
                       "com.apple.CoreSimulator.SimDeviceType.iPhone-16-Pro")
                    sampleRuntimes
                    "com.apple.CoreSimulator.SimRuntime.iOS-18-2"
                    eq_refl eq_refl eq_refl eq_refl eq_refl eq_refl eq_refl
                    eq_refl eq_refl)
                 "Command failed"%string eq_refl).
  - apply (proj1 (start_simulator_foreground_decides
                    (sampleWorld []) emptyState "s1" None
                    deviceTypesOutput runtimesOutput createOutput silentOutput
                    sampleDeviceTypes
                    (mkDeviceType "iPhone 16 Pro"
                       "com.apple.CoreSimulator.SimDeviceType.iPhone-16-Pro")
                    sampleRuntimes
                    "com.apple.CoreSimulator.SimRuntime.iOS-18-2"
                    eq_refl eq_refl eq_refl eq_refl eq_refl eq_refl eq_refl
                    eq_refl eq_refl)
                 silentOutput eq_refl).
Defined.

Lemma start_simulator_twice_witness :
  isError (fst (start_simulator "s1" None (sampleWorld []) emptyState)) = false
  /\ existsb (destroys "s1") sampleCalls = false
  /\ exists current,
       mapGet "s1"
         (managedSimulators
            (performAll sampleCalls (sampleWorld [])
               (snd (start_simulator "s1" None (sampleWorld []) emptyState))))
       = Some current
       /\ fst (start_simulator "s1" (Some "iPad")%string (sampleWorld [])
                 (performAll sampleCalls (sampleWorld [])
                    (snd (start_simulator "s1" None (sampleWorld [])
                            emptyState))))
          = mkResult true
              (errorWithTroubleshooting
                 ("Error starting simulator: "
                  ++ alreadyRunningMessage "s1" current)%string).
Proof.
  split; [reflexivity|]. split; [reflexivity|].
  destruct (start_simulator_twice (sampleWorld []) emptyState "s1" None
              (Some "iPad"%string) sampleCalls eq_refl eq_refl)
    as [first [current [_ [_ [_ [G [_ [_ [E _]]]]]]]]].
  exists current. split; [exact G|]. rewrite E. reflexivity.
Defined.

Lemma findLatestRuntime_last_available_witness :
  (sampleWorld []) (issued emptyState) listRuntimesCmd = Resolves runtimesOutput
  /\ json runtimesOutput = Runtimes sampleRuntimes
  /\ fst (findLatestRuntime (sampleWorld []) emptyState)
     = Return "com.apple.CoreSimulator.SimRuntime.iOS-18-2"%string.
Proof.
  split; [reflexivity|]. split; [reflexivity|].
  apply (proj1 (findLatestRuntime_last_available (sampleWorld []) emptyState
                  runtimesOutput sampleRuntimes eq_refl eq_refl)
               [mkRuntime "iOS 17.5"
                  "com.apple.CoreSimulator.SimRuntime.iOS-17-5" true]
               (mkRuntime "iOS 18.2"
                  "com.apple.CoreSimulator.SimRuntime.iOS-18-2" true)
               eq_refl).
Defined.

Lemma attach_simulator_rejects_malformed_udid_witness :
  ~ canonicalUdid "booted"
  /\ attach_simulator "s2" "booted" (sampleWorld []) oneOwned
     = (InvalidArguments, oneOwned).
Proof.
  assert (N : ~ canonicalUdid "booted").
  { intros C. apply udidRegex_canonical in C. discriminate C. }
  split; [exact N|].
  apply (proj1 (attach_simulator_rejects_malformed_udid
                  "s2" "booted" (sampleWorld []) oneOwned N)).
Defined.


(* ===================================================================== *)
(** * Further properties of the coordinate transform                       *)
(* ===================================================================== *)

(** X1. The effective orientation is never "auto": an explicit setting is
    used as it is, "auto" gives landscape_right for a screen wider than
    tall and portrait otherwise; resolving the result again, for any
    screen, changes nothing. *)
Theorem getEffectiveOrientation_resolved :
  forall (o : Orientation) (screenW screenH : Z),
    let e := getEffectiveOrientation o screenW screenH in
    e <> auto
    /\ (o <> auto -> e = o)
    /\ (o = auto -> screenH < screenW -> e = landscape_right)
    /\ (o = auto -> screenW <= screenH -> e = portrait)
    /\ (forall w' h', getEffectiveOrientation e w' h' = e).
Proof.
  intros o screenW screenH e. subst e.
  destruct o; simpl; try (repeat split; congruence).
  destruct (screenH <? screenW) eqn:C.
  - apply Z.ltb_lt in C. repeat split; try congruence; try reflexivity. lia.
  - apply Z.ltb_ge in C. repeat split; try congruence; try reflexivity. lia.
Qed.

(** X2. A frame that lies on the screen is transformed into a frame that
    lies on the transformed screen, in every orientation, when its numbers
    and the screen's are multiples of one power of two (whole points, half
    points, ...): the transform over doubles is then the exact one. *)
Theorem transformFrame_stays_on_screen :
  forall (e : Z) (f : Frame) (o : Orientation) (screenW screenH : Z),
    scaleInRange e ->
    screenW < 2 ^ 53 -> screenH < 2 ^ 53 ->
    onScreen f screenW screenH ->
    Binary64.transformFrame (scaled e f) o
      (Binary64.dyadic screenW e) (Binary64.dyadic screenH e)
    = scaled e (transformFrame f o screenW screenH)
    /\ onScreen (transformFrame f o screenW screenH)
                (fst (transformedScreen o screenW screenH))
                (snd (transformedScreen o screenW screenH)).
Proof.
  intros e f o screenW screenH E BW BH S. split.
  - apply transformFrame_scaled; [exact E|].
    unfold onScreen in S. unfold exactOn. repeat split; lia.
  - unfold onScreen in *.
    destruct o; simpl; destruct S as [? [? [? [? [? ?]]]]]; repeat split; lia.
Qed.

Lemma transformFrame_stays_on_screen_witness :
  scaleInRange (-1)
  /\ 1688 < 2 ^ 53 /\ 780 < 2 ^ 53
  /\ onScreen (mkFrame 21 40 201 100) 1688 780
  /\ Binary64.transformFrame (scaled (-1) (mkFrame 21 40 201 100))
       landscape_right (Binary64.ofZ 844) (Binary64.ofZ 390)
     = scaled (-1) (mkFrame 40 1466 100 201)
  /\ onScreen (mkFrame 40 1466 100 201) 780 1688.
Proof.
  assert (E : scaleInRange (-1)) by (unfold scaleInRange; lia).
  assert (BW : 1688 < 2 ^ 53) by reflexivity.
  assert (BH : 780 < 2 ^ 53) by reflexivity.
  assert (S : onScreen (mkFrame 21 40 201 100) 1688 780)
    by (unfold onScreen; simpl; lia).
  split; [exact E|]. split; [exact BW|]. split; [exact BH|].
  split; [exact S|].
  exact (transformFrame_stays_on_screen (-1) (mkFrame 21 40 201 100)
           landscape_right 1688 780 E BW BH S).
Defined.

(** With thirds of a point the subtractions round: the frame
    {x: 1169/3, y: 0, width: 1/3, height: 10} of a 390 x 844 screen, whose
    right edge x + width is 390 in doubles, gets a negative y under
    landscape_right. *)
Example transformFrame_thirds_leave_screen :
  let f := {| Binary64.x := Binary64.div (Binary64.ofZ 1169) (Binary64.ofZ 3);
              Binary64.y := Binary64.ofZ 0;
              Binary64.width := Binary64.div (Binary64.ofZ 1) (Binary64.ofZ 3);
              Binary64.height := Binary64.ofZ 10 |} in
  SFadd Binary64.prec Binary64.emax (Binary64.x f) (Binary64.width f)
  = Binary64.ofZ 390
  /\ Binary64.y (Binary64.transformFrame f landscape_right
                   (Binary64.ofZ 390) (Binary64.ofZ 844))
     = S754_finite true 5998935441145856 (-98).
Proof. split; vm_compute; reflexivity. Qed.

(** X3. Quarter turns compose.  Two landscape_right transforms, or two
    landscape_left transforms, the second on the screen the first leads
    to, are the upside_down transform, for all doubles.  A landscape
    transform followed by upside_down is the other landscape transform
    where the subtractions are exact: for numbers that are multiples of
    one power of two with numerators below 2^51 in magnitude. *)
Theorem transformFrame_turns_compose :
  (forall (f : Binary64.Frame) (screenW screenH : Binary64.number),
     Binary64.transformFrame
       (Binary64.transformFrame f landscape_right screenW screenH)
       landscape_right screenH screenW
     = Binary64.transformFrame f upside_down screenW screenH
     /\ Binary64.transformFrame
          (Binary64.transformFrame f landscape_left screenW screenH)
          landscape_left screenH screenW
        = Binary64.transformFrame f upside_down screenW screenH)
  /\ (forall (e : Z) (r : Frame) (screenW screenH : Z),
        scaleInRange e ->
        numeratorsInRange r screenW screenH ->
        Binary64.transformFrame
          (Binary64.transformFrame (scaled e r) landscape_right
             (Binary64.dyadic screenW e) (Binary64.dyadic screenH e))
          upside_down
          (Binary64.dyadic screenH e) (Binary64.dyadic screenW e)
        = Binary64.transformFrame (scaled e r) landscape_left
            (Binary64.dyadic screenW e) (Binary64.dyadic screenH e)
        /\ Binary64.transformFrame
             (Binary64.transformFrame (scaled e r) landscape_left
                (Binary64.dyadic screenW e) (Binary64.dyadic screenH e))
             upside_down
             (Binary64.dyadic screenH e) (Binary64.dyadic screenW e)
           = Binary64.transformFrame (scaled e r) landscape_right
               (Binary64.dyadic screenW e) (Binary64.dyadic screenH e)).
Proof.
  split.
  - intros f screenW screenH. split; reflexivity.
  - intros e r screenW screenH E B.
    pose proof (numeratorsInRange_exactOn r screenW screenH B) as X.
    rewrite !(transformFrame_scaled e r _ screenW screenH E X).
    pose proof (numeratorsInRange_exactOn_next r landscape_right
                  screenW screenH B) as XR.
    pose proof (numeratorsInRange_exactOn_next r landscape_left
                  screenW screenH B) as XL.
    cbn [transformedScreen fst snd] in XR, XL.
    rewrite (transformFrame_scaled e _ upside_down screenH screenW E XR).
    rewrite (transformFrame_scaled e _ upside_down screenH screenW E XL).
    split; f_equal; apply Frame_ext; simpl; lia.
Qed.

Lemma transformFrame_turns_compose_witness :
  scaleInRange 0
  /\ numeratorsInRange (mkFrame 10 20 100 50) 844 390
  /\ Binary64.transformFrame
       (Binary64.transformFrame (scaled 0 (mkFrame 10 20 100 50))
          landscape_right (Binary64.ofZ 844) (Binary64.ofZ 390))
       upside_down (Binary64.ofZ 390) (Binary64.ofZ 844)
     = Binary64.transformFrame (scaled 0 (mkFrame 10 20 100 50))
         landscape_left (Binary64.ofZ 844) (Binary64.ofZ 390).
Proof.
  assert (E : scaleInRange 0) by (unfold scaleInRange; lia).
  assert (B : numeratorsInRange (mkFrame 10 20 100 50) 844 390)
    by (unfold numeratorsInRange; simpl; lia).
  split; [exact E|]. split; [exact B|].
  exact (proj1 (proj2 transformFrame_turns_compose 0
                  (mkFrame 10 20 100 50) 844 390 E B)).
Defined.


(* ===================================================================== *)
(** * Further properties of the provisioner                                *)
(* ===================================================================== *)

Lemma prefix_app (p s : string) :
  prefix p s = true <-> exists rest, s = (p ++ rest)%string.
Proof.
  revert s. induction p as [|c p IH]; intros s; simpl.
  - destruct s; split; eauto.
  - destruct s as [|c' s']; simpl.
    + split; [discriminate | intros [r E]; discriminate].
    + destruct (ascii_dec c c') as [<-|N].
      * rewrite IH. split; intros [r E]; exists r; congruence.
      * split; [discriminate | intros [r E]; congruence].
Qed.

(** [includes] finds exactly the substrings. *)
Lemma includes_mentions (needle hay : string) :
  includes needle hay = true <-> mentions needle hay.
Proof.
  unfold mentions. induction hay as [|c hay IH].
  - cbn [includes]. rewrite orb_false_r, prefix_app. split.
    + intros [rest E]. exists ""%string, rest. exact E.
    + intros [[|b before] [after E]]; simpl in E; [|discriminate].
      exists after. exact E.
  - cbn [includes]. rewrite orb_true_iff, IH, prefix_app. split.
    + intros [[rest E] | [before [after E]]].
      * exists ""%string, rest. exact E.
      * exists (String c before), after. simpl. congruence.
    + intros [[|b before] [after E]]; simpl in E.
      * left. exists after. exact E.
      * right. injection E as _ E. exists before, after. exact E.
Qed.

Lemma filter_first_match {A : Type} (p : A -> bool) (l : list A) (a : A)
    (rest : list A) :
  filter p l = a :: rest ->
  exists pre post, l = pre ++ a :: post /\ p a = true
                   /\ forall b, In b pre -> p b = false.
Proof.
  induction l as [|h l IH]; simpl; [discriminate|].
  destruct (p h) eqn:Ph.
  - intros [= -> _]. exists [], l. repeat split; [exact Ph | intros b []].
  - intros E. destruct (IH E) as [pre [post [-> [Pa Hpre]]]].
    exists (h :: pre), post. repeat split; [exact Pa|].
    intros b [<-|I]; [exact Ph | apply Hpre, I].
Qed.

Lemma filter_nil_none {A : Type} (p : A -> bool) (l : list A) :
  filter p l = [] <-> forall a, In a l -> p a = false.
Proof.
  induction l as [|h l IH]; simpl.
  - split; [intros _ a [] | reflexivity].
  - destruct (p h) eqn:Ph.
    + split; [discriminate|]. intros H.
      specialize (H h (or_introl eq_refl)). congruence.
    + rewrite IH. split.
      * intros H a [<-|I]; [exact Ph | apply H, I].
      * intros H a I. apply H. right. exact I.
Qed.

(** X5. For an ASCII keyword and a catalog of ASCII names, where lower
    case is the folding of A-Z: once the catalog is listed,
    [findDeviceType] answers with the first entry, in catalog order, whose
    name contains the keyword when both are put in lower case; it fails,
    with the message that names the keyword and lists the catalog, exactly
    when no entry does.  The registry is not touched. *)
Theorem findDeviceType_first_match :
  forall (w : World) (st : State) (keyword : string) (out : Output)
         (deviceTypes : list DeviceType),
    asciiOnly keyword = true ->
    forallb (fun d => asciiOnly (dt_name d)) deviceTypes = true ->
    w (issued st) listDeviceTypesCmd = Resolves out ->
    json out = DeviceTypes deviceTypes ->
    let r := fst (findDeviceType keyword w st) in
    (forall dt, r = Return dt ->
       exists pre post,
         deviceTypes = pre ++ dt :: post
         /\ mentions (toLowerCase keyword) (toLowerCase (dt_name dt))
         /\ forall d, In d pre ->
              ~ mentions (toLowerCase keyword) (toLowerCase (dt_name d)))
    /\ ((forall d, In d deviceTypes ->
           ~ mentions (toLowerCase keyword) (toLowerCase (dt_name d)))
        <-> r = Throw (noDeviceTypeMessage keyword deviceTypes))
    /\ ((exists d, In d deviceTypes
                   /\ mentions (toLowerCase keyword) (toLowerCase (dt_name d)))
        -> exists dt, r = Return dt)
    /\ managedSimulators (snd (findDeviceType keyword w st))
       = managedSimulators st.
Proof.
  intros w st keyword out deviceTypes _ _ Hw Hj r. subst r.
  rewrite (findDeviceType_run w st keyword out deviceTypes Hw Hj).
  cbn [fst snd managedSimulators]. unfold pickDeviceType.
  assert (M : forall d, matchesKeyword keyword d = false <->
                        ~ mentions (toLowerCase keyword) (toLowerCase (dt_name d))).
  { intros d. unfold matchesKeyword. rewrite <- includes_mentions.
    destruct (includes _ _); split; congruence. }
  destruct (filter (matchesKeyword keyword) deviceTypes) as [|a rest] eqn:F.
  - split; [intros dt [=]|]. split; [|split; [|reflexivity]].
    + split; [reflexivity|]. intros _ d I. apply M.
      apply (proj1 (filter_nil_none _ _) F d I).
    + intros [d [I Md]]. exfalso.
      apply (proj1 (M d)); [|exact Md].
      apply (proj1 (filter_nil_none _ _) F d I).
  - destruct (filter_first_match _ _ _ _ F) as [pre [post [E [Pa Hpre]]]].
    split; [|split; [|split; [|reflexivity]]].
    + intros dt [= <-]. exists pre, post. split; [exact E|]. split.
      * apply includes_mentions. exact Pa.
      * intros d I. apply M, Hpre, I.
    + split; [|discriminate]. intros H. exfalso.
      apply (H a); [rewrite E; apply in_elt|].
      apply includes_mentions. exact Pa.
    + intros _. exists a. reflexivity.
Qed.

Lemma findDeviceType_first_match_witness :
  asciiOnly "IPAD" = true
  /\ forallb (fun d => asciiOnly (dt_name d)) sampleDeviceTypes = true
  /\ (sampleWorld []) (issued emptyState) listDeviceTypesCmd
     = Resolves deviceTypesOutput
  /\ json deviceTypesOutput = DeviceTypes sampleDeviceTypes
  /\ exists dt, fst (findDeviceType "IPAD" (sampleWorld []) emptyState)
                = Return dt.
Proof.
  split; [reflexivity|]. split; [reflexivity|].
  split; [reflexivity|]. split; [reflexivity|].
  apply (proj1 (proj2 (proj2 (findDeviceType_first_match (sampleWorld [])
                                emptyState "IPAD" deviceTypesOutput
                                sampleDeviceTypes eq_refl eq_refl
                                eq_refl eq_refl)))).
  exists (mkDeviceType "iPad Air" "com.apple.CoreSimulator.SimDeviceType.iPad-Air").
  split; [simpl; auto|].
  exists ""%string, " air"%string. reflexivity.
Defined.

Lemma join_mentions (sep : string) (parts : list string) (p : string) :
  In p parts -> mentions p (join sep parts).
Proof.
  unfold mentions, join.
  induction parts as [|h parts IH]; [intros []|].
  intros [<-|I].
  - destruct parts as [|h2 parts]; simpl.
    + exists ""%string, ""%string. simpl.
      clear. induction h as [|c h IHh]; simpl; congruence.
    + exists ""%string. eexists. reflexivity.
  - destruct (IH I) as [before [after E]].
    destruct parts as [|h2 parts]; [destruct I|].
    cbn [String.concat]. cbn [String.concat] in E. rewrite E.
    exists (h ++ sep ++ before)%string, after.
    rewrite !string_app_assoc. reflexivity.
Qed.

(** X6. The message of a failed device-type look-up quotes the keyword
    as given and names every entry of the catalog. *)
Theorem noDeviceTypeMessage_lists_catalog :
  forall (keyword : string) (deviceTypes : list DeviceType),
    mentions keyword (noDeviceTypeMessage keyword deviceTypes)
    /\ forall d, In d deviceTypes ->
         mentions (dt_name d) (noDeviceTypeMessage keyword deviceTypes).
Proof.
  intros keyword deviceTypes. unfold noDeviceTypeMessage. split.
  - exists ("No device type found matching " ++ dq)%string.
    eexists. rewrite !string_app_assoc. reflexivity.
  - intros d I.
    destruct (join_mentions ", " (map dt_name deviceTypes) (dt_name d)
                (in_map dt_name _ _ I)) as [before [after E]].
    rewrite E.
    exists ("No device type found matching " ++ dq ++ keyword ++ dq
            ++ ". Available types: " ++ before)%string, after.
    rewrite !string_app_assoc. reflexivity.
Qed.

Lemma lowerAscii_not_upper (c : ascii) :
  let n := nat_of_ascii (lowerAscii c) in
  ((65 <=? n) && (n <=? 90))%nat = false.
Proof.
  unfold lowerAscii.
  destruct ((65 <=? nat_of_ascii c) && (nat_of_ascii c <=? 90))%nat eqn:U.
  - apply andb_true_iff in U. destruct U as [L H].
    apply Nat.leb_le in L, H.
    rewrite nat_ascii_embedding by lia.
    apply andb_false_iff. right. apply Nat.leb_gt. lia.
  - exact U.
Qed.

Lemma dashSpaces_chars (s : string) :
  forall inRun c,
    In c (list_ascii_of_string (dashSpaces inRun s)) ->
    isSpace c = false
    /\ (c = "-"%char \/ In c (list_ascii_of_string s)).
Proof.
  induction s as [|h s IH]; intros inRun c; simpl; [intros []|].
  destruct (isSpace h) eqn:Sp.
  - destruct inRun; simpl.
    + intros I. destruct (IH _ _ I) as [N [D|J]]; auto.
    + intros [<-|I]; [split; [reflexivity | auto]|].
      destruct (IH _ _ I) as [N [D|J]]; auto.
  - simpl. intros [<-|I]; [auto|].
    destruct (IH _ _ I) as [N [D|J]]; auto.
Qed.

Lemma lowerAscii_ascii (c : ascii) :
  (nat_of_ascii c <? 128)%nat = true ->
  (nat_of_ascii (lowerAscii c) <? 128)%nat = true.
Proof.
  intros A. unfold lowerAscii.
  destruct ((65 <=? nat_of_ascii c) && (nat_of_ascii c <=? 90))%nat eqn:U;
    [|exact A].
  apply andb_true_iff in U. destruct U as [L H].
  apply Nat.leb_le in L, H.
  rewrite nat_ascii_embedding by lia.
  apply Nat.ltb_lt. lia.
Qed.

Lemma toLowerCase_chars (s : string) (c : ascii) :
  In c (list_ascii_of_string (toLowerCase s)) ->
  exists c0, In c0 (list_ascii_of_string s) /\ c = lowerAscii c0.
Proof.
  induction s as [|h s IH]; simpl; [intros []|].
  intros [<-|I].
  - exists h. auto.
  - destruct (IH I) as [c0 [I0 E]]. exists c0. auto.
Qed.

(** X7. For an ASCII keyword, the name given to a created simulator is
    the session id, an underscore, and the keyword in lower case with
    every run of white space replaced by one dash: that last part is
    ASCII again and holds no white space and no upper-case letter. *)
Theorem deviceNameOf_shape :
  forall (id keyword : string),
    asciiOnly keyword = true ->
    exists suffix,
      deviceNameOf id keyword = (id ++ "_" ++ suffix)%string
      /\ asciiOnly suffix = true
      /\ forall c, In c (list_ascii_of_string suffix) ->
           isSpace c = false
           /\ ((65 <=? nat_of_ascii c) && (nat_of_ascii c <=? 90))%nat = false.
Proof.
  intros id keyword A. exists (dashSpaces false (toLowerCase keyword)).
  split; [reflexivity|].
  unfold asciiOnly in *. rewrite forallb_forall in A.
  split.
  - apply forallb_forall. intros c I.
    destruct (dashSpaces_chars _ _ _ I) as [_ [->|J]]; [reflexivity|].
    destruct (toLowerCase_chars _ _ J) as [c0 [I0 ->]].
    apply lowerAscii_ascii, A, I0.
  - intros c I. destruct (dashSpaces_chars _ _ _ I) as [N [->|J]].
    + split; reflexivity.
    + split; [exact N|].
      destruct (toLowerCase_chars _ _ J) as [c0 [_ ->]].
      apply lowerAscii_not_upper.
Qed.

Lemma deviceNameOf_shape_witness :
  asciiOnly "iPhone 15  Pro" = true
  /\ exists suffix,
       deviceNameOf "s1" "iPhone 15  Pro" = ("s1" ++ "_" ++ suffix)%string
       /\ asciiOnly suffix = true.
Proof.
  split; [reflexivity|].
  destruct (deviceNameOf_shape "s1" "iPhone 15  Pro" eq_refl)
    as [suffix [E [A _]]].
  exists suffix. split; [exact E | exact A].
Defined.

(* ===================================================================== *)
(** * Further properties of the lifecycle handlers                         *)
(* ===================================================================== *)

Lemma attach_handler_outcome (w : World) (st : State) (id u : string) :
  (isError (fst (attach_handler id u w st)) = true
   /\ managedSimulators (snd (attach_handler id u w st)) = managedSimulators st)
  \/ (isError (fst (attach_handler id u w st)) = false
      /\ mapGet id (managedSimulators st) = None
      /\ exists n, managedSimulators (snd (attach_handler id u w st))
                   = mapSet id (mkSim u n false auto) (managedSimulators st)).
Proof.
  unfold attach_handler, handler, attach_body.
  unfold bind, getSim, run, throw, ret, setSim.
  crunch; try (left; split; reflexivity).
  right. split; [reflexivity|]. split; [reflexivity|]. eexists; reflexivity.
Qed.

Lemma destroy_simulator_outcome (w : World) (st : State) (id : string) :
  (isError (fst (destroy_simulator id w st)) = true
   /\ managedSimulators (snd (destroy_simulator id w st)) = managedSimulators st)
  \/ (isError (fst (destroy_simulator id w st)) = false
      /\ (exists s, mapGet id (managedSimulators st) = Some s)
      /\ managedSimulators (snd (destroy_simulator id w st))
         = mapDelete id (managedSimulators st)).
Proof.
  unfold destroy_simulator, handler, destroy_body.
  unfold bind, getSim, run, throw, ret, deleteSim.
  crunch; try (left; split; reflexivity).
  all: right; split; [reflexivity|]; split; [eexists; reflexivity | reflexivity].
Qed.

Lemma set_rotation_coords_outcome (w : World) (st : State) (id : string)
    (o : Orientation) :
  (isError (fst (set_rotation_coords id o w st)) = true
   /\ snd (set_rotation_coords id o w st) = st)
  \/ (isError (fst (set_rotation_coords id o w st)) = false
      /\ exists s, mapGet id (managedSimulators st) = Some s
           /\ snd (set_rotation_coords id o w st)
              = mkState (mapSet id (mkSim (udid s) (name s) (owned s) o)
                           (managedSimulators st))
                        (issued st)).
Proof.
  unfold set_rotation_coords, set_rotation_body.
  unfold bind, getSim, throw, ret, setSim.
  crunch.
  - right. split; [reflexivity|]. eexists. split; reflexivity.
  - left. split; reflexivity.
Qed.

(** X8. A lifecycle call that reports an error has not changed the
    registry: no start, attach, destroy or rotation setting leaves a
    partial entry behind. *)
Theorem failed_call_keeps_registry :
  forall (c : Call) (w : World) (st : State),
    isError (callResult c w st) = true ->
    managedSimulators (perform c w st) = managedSimulators st.
Proof.
  intros [id type | id u | id | id o] w st; simpl; intros E.
  - destruct (start_simulator_registry w st id type) as [K | [_ [Ok _]]];
      [exact K | congruence].
  - destruct (attach_handler_outcome w st id u) as [[_ K] | [Ok _]];
      [exact K | congruence].
  - destruct (destroy_simulator_outcome w st id) as [[_ K] | [Ok _]];
      [exact K | congruence].
  - destruct (set_rotation_coords_outcome w st id o) as [[_ K] | [Ok _]];
      [rewrite K; reflexivity | congruence].
Qed.

Lemma failed_call_keeps_registry_witness :
  isError (callResult (CallAttach "s2" otherUdid) (sampleWorld []) oneOwned)
  = true
  /\ managedSimulators (perform (CallAttach "s2" otherUdid) (sampleWorld [])
                          oneOwned)
     = managedSimulators oneOwned.
Proof.
  split; [reflexivity|].
  apply (failed_call_keeps_registry (CallAttach "s2" otherUdid)
           (sampleWorld []) oneOwned).
  reflexivity.
Defined.

Lemma mapSet_keys (id : string) (v : Sim) (m : Registry) :
  map fst (mapSet id v m)
  = match mapGet id m with
    | Some _ => map fst m
    | None => map fst m ++ [id]
    end.
Proof.
  induction m as [|[k v'] rest IH]; simpl; [reflexivity|].
  destruct (String.eqb id k) eqn:E; simpl; [reflexivity|].
  rewrite IH. destruct (mapGet id rest); reflexivity.
Qed.

Lemma mapGet_None_keys (id : string) (m : Registry) :
  mapGet id m = None <-> ~ In id (map fst m).
Proof.
  induction m as [|[k v] rest IH]; simpl.
  - split; [intros _ [] | reflexivity].
  - destruct (String.eqb id k) eqn:E.
    + apply String.eqb_eq in E. subst k.
      split; [discriminate | intros N; exfalso; apply N; left; reflexivity].
    + apply String.eqb_neq in E. rewrite IH. split.
      * intros N [K|I]; [congruence | exact (N I)].
      * intros N I. apply N. right. exact I.
Qed.

Lemma mapSet_uniqueKeys (id : string) (v : Sim) (m : Registry) :
  uniqueKeys m -> uniqueKeys (mapSet id v m).
Proof.
  unfold uniqueKeys. intros U. rewrite mapSet_keys.
  destruct (mapGet id m) eqn:G; [exact U|].
  apply mapGet_None_keys in G.
  apply NoDup_app; [exact U | repeat constructor; intros [] |].
  intros a Ia [<-|[]]. exact (G Ia).
Qed.

Lemma mapDelete_keys_In (id k : string) (m : Registry) :
  In k (map fst (mapDelete id m)) -> In k (map fst m).
Proof.
  induction m as [|[k' v] rest IH]; simpl; [auto|].
  destruct (String.eqb id k'); simpl; [auto|].
  intros [E|I]; [left; exact E | right; apply IH, I].
Qed.

Lemma mapDelete_uniqueKeys (id : string) (m : Registry) :
  uniqueKeys m -> uniqueKeys (mapDelete id m).
Proof.
  unfold uniqueKeys. induction m as [|[k v] rest IH]; simpl; [auto|].
  intros U. inversion U as [|? ? N U']; subst.
  destruct (String.eqb id k); simpl; [exact U'|].
  constructor; [|apply IH, U'].
  intros I. apply N. apply (mapDelete_keys_In id k rest I).
Qed.

Lemma perform_uniqueKeys (c : Call) (w : World) (st : State) :
  uniqueKeys (managedSimulators st) ->
  uniqueKeys (managedSimulators (perform c w st)).
Proof.
  intros U. destruct c as [id type | id u | id | id o]; simpl.
  - destruct (start_simulator_registry w st id type) as [K | [_ [_ [u K]]]];
      rewrite K; [exact U | apply mapSet_uniqueKeys, U].
  - destruct (attach_handler_registry w st id u) as [K | [_ [v K]]];
      rewrite K; [exact U | apply mapSet_uniqueKeys, U].
  - destruct (destroy_simulator_registry w st id) as [K | K];
      rewrite K; [exact U | apply mapDelete_uniqueKeys, U].
  - destruct (set_rotation_coords_registry w st id o) as [K | [s [_ K]]];
      rewrite K; [exact U | apply mapSet_uniqueKeys, U].
Qed.

(** The association list stands for a [Map]: from distinct keys, every
    sequence of lifecycle calls leads to distinct keys. *)
Lemma performAll_uniqueKeys (calls : list Call) :
  forall (w : World) (st : State),
    uniqueKeys (managedSimulators st) ->
    uniqueKeys (managedSimulators (performAll calls w st)).
Proof.
  induction calls as [|c rest IH]; intros w st U; simpl; [exact U|].
  apply IH, perform_uniqueKeys, U.
Qed.

(** X10. Sessions do not interfere: a lifecycle call about one session
    id, whatever its outcome, leaves the handle of every other session id
    exactly as it was. *)
Theorem perform_other_session_untouched :
  forall (c : Call) (w : World) (st : State) (id : string),
    id <> callId c ->
    mapGet id (managedSimulators (perform c w st))
    = mapGet id (managedSimulators st).
Proof.
  intros [id' type | id' u | id' | id' o] w st id N; simpl in *.
  - destruct (start_simulator_registry w st id' type) as [K | [_ [_ [u K]]]];
      rewrite K; [reflexivity | apply mapGet_mapSet_ne, N].
  - destruct (attach_handler_registry w st id' u) as [K | [_ [v K]]];
      rewrite K; [reflexivity | apply mapGet_mapSet_ne, N].
  - destruct (destroy_simulator_registry w st id') as [K | K];
      rewrite K; [reflexivity | apply mapGet_mapDelete_ne, N].
  - destruct (set_rotation_coords_registry w st id' o) as [K | [s [_ K]]];
      rewrite K; [reflexivity | apply mapGet_mapSet_ne, N].
Qed.

Lemma perform_other_session_untouched_witness :
  "s1"%string <> callId (CallDestroy "s3")
  /\ mapGet "s1" (managedSimulators
                    (perform (CallDestroy "s3") (sampleWorld []) threeSessions))
     = Some (mkSim sampleUdid "s1_iphone" true auto).
Proof.
  split; [discriminate|].
  rewrite (perform_other_session_untouched (CallDestroy "s3") (sampleWorld [])
             threeSessions "s1"); [reflexivity | discriminate].
Defined.

(** X11. Destroying a session that was attached (not owned) sends no
    command at all: the simulator is neither shut down nor deleted; the
    entry is dropped, the call reports the detachment, and, keys being
    distinct, the session is absent afterwards. *)
Theorem destroy_simulator_attached_only_detaches :
  forall (w : World) (st : State) (id : string) (s : Sim),
    uniqueKeys (managedSimulators st) ->
    mapGet id (managedSimulators st) = Some s ->
    owned s = false ->
    let r := destroy_simulator id w st in
    isError (fst r) = false
    /\ issued (snd r) = issued st
    /\ mapGet id (managedSimulators (snd r)) = None
    /\ mentions (udid s) (text (fst r)).
Proof.
  intros w st id s U G O r. subst r.
  rewrite (destroy_simulator_detaches w st id s G O).
  cbn [fst snd isError issued managedSimulators text].
  split; [reflexivity|]. split; [reflexivity|].
  split; [apply mapGet_mapDelete_eq, U|].
  exists ("Detached from simulator: " ++ dq ++ name s ++ dq ++ " (")%string,
         ")"%string.
  rewrite !string_app_assoc. reflexivity.
Qed.

Lemma destroy_simulator_attached_only_detaches_witness :
  uniqueKeys (managedSimulators threeSessions)
  /\ mapGet "s2" (managedSimulators threeSessions)
     = Some (mkSim otherUdid "Old phone" false auto)
  /\ issued (snd (destroy_simulator "s2"
                    (sampleWorld [shutdownCmd otherUdid]) threeSessions))
     = [].
Proof.
  assert (U : uniqueKeys (managedSimulators threeSessions)).
  { repeat constructor; simpl; intuition discriminate. }
  split; [exact U|]. split; [reflexivity|].
  apply (proj1 (proj2 (destroy_simulator_attached_only_detaches
                         (sampleWorld [shutdownCmd otherUdid]) threeSessions
                         "s2" (mkSim otherUdid "Old phone" false auto)
                         U eq_refl eq_refl))).
Defined.

Lemma mapDelete_mapSet_fresh (id : string) (v : Sim) (m : Registry) :
  mapGet id m = None -> mapDelete id (mapSet id v m) = m.
Proof.
  induction m as [|[k v'] rest IH]; simpl.
  - intros _. rewrite String.eqb_refl. reflexivity.
  - destruct (String.eqb id k) eqn:E; [discriminate|].
    intros G. simpl. rewrite E, (IH G). reflexivity.
Qed.

(** X12. Start and destroy undo each other on the registry: when a
    session is started and then destroyed, both calls succeeding, the
    registry is again what it was before the start, entry for entry and
    in the same order. *)
Theorem start_then_destroy_restores_registry :
  forall (w : World) (st : State) (id : string) (type : option string),
    let started := start_simulator id type w st in
    let destroyed := destroy_simulator id w (snd started) in
    isError (fst started) = false ->
    isError (fst destroyed) = false ->
    managedSimulators (snd destroyed) = managedSimulators st.
Proof.
  intros w st id type started destroyed Ok1 Ok2. subst started destroyed.
  destruct (start_simulator_registry w st id type) as [K | [N [_ [u K]]]].
  - exfalso.
    destruct (mapGet id (managedSimulators st)) as [e|] eqn:G.
    + rewrite (start_simulator_active w st id type e G) in Ok1. discriminate.
    + revert Ok1 K.
      unfold start_simulator, handler, start_body, findDeviceType,
        findLatestRuntime.
      unfold bind, getSim, run, lift, throw, ret, setSim.
      rewrite G. crunch; try discriminate.
      intros _ K.
      assert (F : mapGet id (managedSimulators st) <> None).
      { rewrite <- K. rewrite mapGet_mapSet_eq. discriminate. }
      apply F, G.
  - destruct (destroy_simulator_outcome w (snd (start_simulator id type w st)) id)
      as [[E _] | [_ [_ D]]]; [congruence|].
    rewrite D, K. apply mapDelete_mapSet_fresh, N.
Qed.

Lemma start_then_destroy_restores_registry_witness :
  isError (fst (start_simulator "s9" None (sampleWorld []) threeSessions))
  = false
  /\ managedSimulators
       (snd (destroy_simulator "s9" (sampleWorld [])
               (snd (start_simulator "s9" None (sampleWorld []) threeSessions))))
     = managedSimulators threeSessions.
Proof.
  split; [reflexivity|].
  apply (start_then_destroy_restores_registry (sampleWorld []) threeSessions
           "s9" None); reflexivity.
Defined.

Lemma findDevice_Some (u : string) (devices : list (list Device)) (d : Device) :
  findDevice u devices = Some d ->
  dev_udid d = u /\ exists group, In group devices /\ In d group.
Proof.
  unfold findDevice. intros F. apply find_some in F. destruct F as [I E].
  apply String.eqb_eq in E. split; [exact E|].
  apply in_concat in I. destruct I as [group [Ig Id]]. eauto.
Qed.

Lemma findDevice_None (u : string) (devices : list (list Device)) :
  findDevice u devices = None <->
  forall group d, In group devices -> In d group -> dev_udid d <> u.
Proof.
  unfold findDevice. split.
  - intros F group d Ig Id E.
    assert (I : In d (List.concat devices)) by (apply in_concat; eauto).
    apply (find_none _ _ F) in I. apply String.eqb_neq in I. exact (I E).
  - intros H. destruct (find _ _) as [d|] eqn:F; [|reflexivity].
    apply find_some in F. destruct F as [I E]. apply String.eqb_eq in E.
    apply in_concat in I. destruct I as [group [Ig Id]].
    exfalso. exact (H group d Ig Id E).
Qed.

(** X13. What makes an attach fail once the device list is read: if no
    listed device, under any runtime, has the udid, the call fails with
    the not-found message; if the first listed device with that udid is
    not in state "Booted", it fails with the not-booted message, which
    gives the observed state.  In both cases one command was sent (the
    listing) and the registry is unchanged. *)
Theorem attach_handler_refusals :
  forall (w : World) (st : State) (id u : string) (out : Output)
         (devices : list (list Device)),
    mapGet id (managedSimulators st) = None ->
    w (issued st) listDevicesCmd = Resolves out ->
    json out = Devices devices ->
    let r := attach_handler id u w st in
    let st' := mkState (managedSimulators st) (issued st ++ [listDevicesCmd]) in
    ((forall group d, In group devices -> In d group -> dev_udid d <> u) ->
       r = (mkResult true
              (errorWithTroubleshooting
                 ("Error attaching to simulator: " ++ notFoundMessage u)%string),
            st'))
    /\ (forall found, findDevice u devices = Some found ->
          dev_state found <> "Booted"%string ->
          r = (mkResult true
                 (errorWithTroubleshooting
                    ("Error attaching to simulator: "
                     ++ notBootedMessage found u)%string),
               st')
          /\ mentions (dev_state found) (notBootedMessage found u)).
Proof.
  intros w st id u out devices G Hw Hj r st'. subst r st'.
  unfold attach_handler, handler, attach_body.
  unfold bind, getSim, throw, ret, setSim.
  rewrite G, (run_resolves w st _ out Hw). cbv beta iota. rewrite Hj.
  split.
  - intros H. rewrite (proj2 (findDevice_None u devices) H). reflexivity.
  - intros found F NB. rewrite F.
    apply String.eqb_neq in NB. rewrite NB. cbn [negb].
    split; [reflexivity|].
    unfold notBootedMessage.
    exists ("Simulator " ++ dq ++ dev_name found ++ dq ++ " (" ++ u
            ++ ") is not booted (state: ")%string, ")."%string.
    rewrite !string_app_assoc. reflexivity.
Qed.

Lemma attach_handler_refusals_witness :
  mapGet "s2" (managedSimulators oneOwned) = None
  /\ fst (attach_handler "s2" otherUdid (sampleWorld []) oneOwned)
     = mkResult true
         (errorWithTroubleshooting
            ("Error attaching to simulator: "
             ++ notBootedMessage (mkDevice otherUdid "Old phone" "Shutdown")
                  otherUdid)%string)
  /\ managedSimulators (snd (attach_handler "s2" otherUdid (sampleWorld [])
                               oneOwned))
     = managedSimulators oneOwned.
Proof.
  split; [reflexivity|].
  destruct (proj2 (attach_handler_refusals (sampleWorld []) oneOwned "s2"
                     otherUdid devicesOutput sampleDevices
                     eq_refl eq_refl eq_refl)
                  (mkDevice otherUdid "Old phone" "Shutdown") eq_refl)
    as [E _]; [discriminate|].
  rewrite E. split; reflexivity.
Defined.

(** Closing a goal on the commands a handler has added to the log. *)
Ltac new_commands :=
  first [ exists []; split; [symmetry; apply app_nil_r | reflexivity]
        | eexists; split; [rewrite <- ?app_assoc; reflexivity | reflexivity] ].

Lemma start_simulator_commands (w : World) (st : State) (id : string)
    (type : option string) :
  exists new,
    issued (snd (start_simulator id type w st)) = issued st ++ new
    /\ forallb (fun c => negb (destructive c)) new = true.
Proof.
  unfold start_simulator, handler, start_body, findDeviceType,
    findLatestRuntime.
  unfold bind, getSim, run, lift, throw, ret, setSim.
  crunch; new_commands.
Qed.

Lemma attach_handler_commands (w : World) (st : State) (id u : string) :
  issued (snd (attach_handler id u w st)) = issued st
  \/ issued (snd (attach_handler id u w st)) = issued st ++ [listDevicesCmd].
Proof.
  unfold attach_handler, handler, attach_body.
  unfold bind, getSim, run, throw, ret, setSim.
  crunch; auto.
Qed.

(** X14. Only destroy tears a simulator down: whatever a start, an
    attach or a rotation setting does, and whether it succeeds or fails,
    none of the commands it sends is a simctl shutdown or delete. *)
Theorem only_destroy_sends_teardown :
  forall (c : Call) (w : World) (st : State),
    isDestroy c = false ->
    exists new,
      issued (perform c w st) = issued st ++ new
      /\ forall k, In k new -> destructive k = false.
Proof.
  intros [id type | id u | id | id o] w st D; simpl in *; try discriminate.
  - destruct (start_simulator_commands w st id type) as [new [E F]].
    exists new. split; [exact E|].
    intros k I. rewrite forallb_forall in F. apply negb_true_iff, F, I.
  - destruct (attach_handler_commands w st id u) as [E | E]; rewrite E.
    + exists []. split; [symmetry; apply app_nil_r | intros k []].
    + exists [listDevicesCmd]. split; [reflexivity|].
      intros k [<-|[]]. reflexivity.
  - destruct (set_rotation_coords_outcome w st id o) as [[_ E] | [_ [s [_ E]]]];
      rewrite E; exists []; (split; [symmetry; apply app_nil_r | intros k []]).
Qed.

Lemma only_destroy_sends_teardown_witness :
  isDestroy (CallStart "s1" None) = false
  /\ exists new,
       issued (perform (CallStart "s1" None) (sampleWorld []) emptyState)
       = issued emptyState ++ new
       /\ forall k, In k new -> destructive k = false.
Proof.
  split; [reflexivity|].
  apply (only_destroy_sends_teardown (CallStart "s1" None) (sampleWorld [])
           emptyState).
  reflexivity.
Defined.

(** X15. After a successful attach of session [id] to [u], the look-up
    every UI tool starts with returns [u] for that session, without
    touching the state. *)
Theorem getManagedSimulatorId_after_attach :
  forall (w w' : World) (st : State) (id u : string),
    isError (fst (attach_handler id u w st)) = false ->
    let st' := snd (attach_handler id u w st) in
    getManagedSimulatorId id w' st' = (Return u, st').
Proof.
  intros w w' st id u Ok st'. subst st'.
  destruct (attach_handler_outcome w st id u) as [[E _] | [_ [_ [n K]]]];
    [congruence|].
  unfold getManagedSimulatorId, bind, getSim, ret.
  rewrite K, mapGet_mapSet_eq. reflexivity.
Qed.

Lemma getManagedSimulatorId_after_attach_witness :
  isError (fst (attach_handler "s2" sampleUdid (sampleWorld []) oneOwned))
  = false
  /\ fst (getManagedSimulatorId "s2" (sampleWorld [])
            (snd (attach_handler "s2" sampleUdid (sampleWorld []) oneOwned)))
     = Return sampleUdid.
Proof.
  split; [reflexivity|].
  rewrite (getManagedSimulatorId_after_attach (sampleWorld []) (sampleWorld [])
             oneOwned "s2" sampleUdid eq_refl).
  reflexivity.
Defined.

(** X16. After a successful destroy of session [id], keys being
    distinct, the look-up fails with the no-simulator message: the UI
    tools of that session are refused until it is started or attached
    again. *)
Theorem getManagedSimulatorId_after_destroy :
  forall (w w' : World) (st : State) (id : string),
    uniqueKeys (managedSimulators st) ->
    isError (fst (destroy_simulator id w st)) = false ->
    let st' := snd (destroy_simulator id w st) in
    getManagedSimulatorId id w' st' = (Throw (noSessionMessage id), st').
Proof.
  intros w w' st id U Ok st'. subst st'.
  destruct (destroy_simulator_outcome w st id) as [[E _] | [_ [_ K]]];
    [congruence|].
  unfold getManagedSimulatorId, bind, getSim, throw.
  rewrite K, (mapGet_mapDelete_eq id _ U). reflexivity.
Qed.

Lemma getManagedSimulatorId_after_destroy_witness :
  uniqueKeys (managedSimulators oneOwned)
  /\ isError (fst (destroy_simulator "s1" (sampleWorld []) oneOwned)) = false
  /\ fst (getManagedSimulatorId "s1" (sampleWorld [])
            (snd (destroy_simulator "s1" (sampleWorld []) oneOwned)))
     = Throw (noSessionMessage "s1").
Proof.
  assert (U : uniqueKeys (managedSimulators oneOwned)).
  { repeat constructor. intros []. }
  split; [exact U|]. split; [reflexivity|].
  rewrite (getManagedSimulatorId_after_destroy (sampleWorld []) (sampleWorld [])
             oneOwned "s1" U eq_refl).
  reflexivity.
Defined.

(** X17. The sweeper leaves nothing behind: after it has run, every
    session look-up fails, and running it again sends no command and
    changes nothing. *)
Theorem cleanupAllSimulators_final :
  forall (w w' : World) (st : State),
    let st' := snd (cleanupAllSimulators w st) in
    (forall id, getManagedSimulatorId id w' st'
                = (Throw (noSessionMessage id), st'))
    /\ cleanupAllSimulators w' st' = (Return tt, st').
Proof.
  intros w w' st st'. subst st'.
  unfold cleanupAllSimulators, bind, entries, clearSims.
  rewrite forEach_cleanupOne_run. cbn [fst snd managedSimulators issued].
  split.
  - intros id. reflexivity.
  - rewrite forEach_cleanupOne_run. cbn [managedSimulators issued teardownCommands flat_map].
    rewrite app_nil_r. reflexivity.
Qed.

Lemma digitRun_split (s : string) :
  exists rest, s = (digitRun s ++ rest)%string /\ startsWithDigit rest = false.
Proof.
  induction s as [|c s [rest [E N]]]; simpl.
  - exists ""%string. split; reflexivity.
  - destruct (isDigit c) eqn:D.
    + exists rest. simpl. split; [congruence | exact N].
    + exists (String c s). split; [reflexivity | exact D].
Qed.

Lemma digitRun_digits (s : string) :
  forall c, In c (list_ascii_of_string (digitRun s)) -> isDigit c = true.
Proof.
  induction s as [|h s IH]; simpl; [intros c []|].
  destruct (isDigit h) eqn:D; simpl; [|intros c []].
  intros c [<-|I]; [exact D | apply IH, I].
Qed.

(** X18. The process id [launch_app] reports is the longest run of
    digits at the very start of the output of simctl launch: it is not
    empty, holds digits only, and what follows it does not begin with a
    digit; no process id is reported exactly when the output does not
    begin with a digit. *)
Theorem pidOf_leading_digits :
  forall (out : string),
    (forall pid, pidOf out = Some pid ->
       pid <> ""%string
       /\ (forall c, In c (list_ascii_of_string pid) -> isDigit c = true)
       /\ exists rest, out = (pid ++ rest)%string
                       /\ startsWithDigit rest = false)
    /\ (pidOf out = None <-> startsWithDigit out = false).
Proof.
  intros out. unfold pidOf. split.
  - intros pid E.
    destruct (digitRun out) as [|c d] eqn:R; [discriminate|].
    injection E as <-. split; [discriminate|]. split.
    + rewrite <- R. apply digitRun_digits.
    + rewrite <- R. apply digitRun_split.
  - destruct out as [|c s]; simpl; [split; reflexivity|].
    destruct (isDigit c); split; (reflexivity || discriminate).
Qed.

Example pidOf_sample : pidOf "4242: com.example.app" = Some "4242"%string.
Proof. reflexivity. Qed.

Example launch_app_sample :
  launch_app "s1" "com.example.app" (Some true) describeWorld oneOwned
  = (mkResult false
       "App com.example.app launched successfully with PID: 4242",
     mkState (managedSimulators oneOwned)
       [xcrun ["simctl"; "launch"; "--terminate-running-process";
               sampleUdid; "com.example.app"]]).
Proof. reflexivity. Qed.

(** X19. [install_app] never asks simctl to install a bundle that is not
    there: when the path, made absolute, does not exist, the call fails,
    no command is sent and the state is unchanged, whether or not the
    session exists. *)
Theorem install_app_missing_bundle :
  forall (h : Host) (id app_path : string) (w : World) (st : State),
    existsSync h (if isAbsolute app_path then app_path
                  else pathResolve h app_path) = false ->
    isError (fst (install_app h id app_path w st)) = true
    /\ snd (install_app h id app_path w st) = st.
Proof.
  intros h id app_path w st E.
  unfold install_app, handler, install_body, getManagedSimulatorId.
  unfold bind, getSim, throw, ret.
  destruct (mapGet id (managedSimulators st)); cbv beta iota.
  - rewrite E. cbn [negb]. split; reflexivity.
  - split; reflexivity.
Qed.

Lemma install_app_missing_bundle_witness :
  existsSync sampleHost (if isAbsolute "Demo.app" then "Demo.app"%string
                         else pathResolve sampleHost "Demo.app") = false
  /\ snd (install_app sampleHost "s1" "Demo.app" (sampleWorld []) oneOwned)
     = oneOwned.
Proof.
  split; [reflexivity|].
  apply (proj2 (install_app_missing_bundle sampleHost "s1" "Demo.app"
                  (sampleWorld []) oneOwned eq_refl)).
Defined.

(** X20. [idb] never runs a configured executable that does not exist:
    either nothing is sent and the call throws the missing-path message,
    or one command is sent whose executable is "idb" (no path configured)
    or a configured path, tilde expanded, that exists. *)
Theorem idb_runs_existing_executable :
  forall (h : Host) (a : list string) (w : World) (st : State),
    (exists custom,
       envValue (IOS_SIMULATOR_MCP_IDB_PATH h) = Some custom
       /\ existsSync h (expandTilde h custom) = false
       /\ idb h a w st
          = (Throw (missingIdbMessage (expandTilde h custom)), st))
    \/ (exists p,
          issued (snd (idb h a w st)) = issued st ++ [mkCmd p a]
          /\ ((p = "idb"%string
               /\ envValue (IOS_SIMULATOR_MCP_IDB_PATH h) = None)
              \/ existsSync h p = true)).
Proof.
  intros h a w st. unfold idb, getIdbPath.
  destruct (envValue (IOS_SIMULATOR_MCP_IDB_PATH h)) as [custom|] eqn:V.
  - destruct (existsSync h (expandTilde h custom)) eqn:X; cbn [negb].
    + right. exists (expandTilde h custom). split; [|right; exact X].
      unfold run. destruct (w _ _); reflexivity.
    + left. exists custom. repeat split. exact X.
  - right. exists "idb"%string. split; [|left; split; reflexivity].
    unfold run. destruct (w _ _); reflexivity.
Qed.

Example getIdbPath_sample :
  getIdbPath sampleHost = Return "/Users/dev/bin/idb"%string.
Proof. reflexivity. Qed.

Example ensureAbsolutePath_samples :
  ensureAbsolutePath sampleHost "/tmp/a.png" = "/tmp/a.png"%string
  /\ ensureAbsolutePath sampleHost "~/a.png" = "/Users/dev/a.png"%string
  /\ ensureAbsolutePath sampleHost "a.png" = "/Users/dev/shots/a.png"%string.
Proof. repeat split. Qed.

(** X21. [ensureAbsolutePath] returns an absolute path as it is, and,
    on a host whose home directory is absolute, whose output directory
    setting is unset, absolute or under "~/", and whose path.join keeps a
    path that starts absolute absolute, it returns an absolute path for
    every input; applying it again then changes nothing. *)
Theorem ensureAbsolutePath_absolute :
  forall (h : Host) (filePath : string),
    (forall a b, isAbsolute a = true -> isAbsolute (pathJoin h a b) = true) ->
    isAbsolute (homedir h) = true ->
    outputDirAnchored h = true ->
    (isAbsolute filePath = true -> ensureAbsolutePath h filePath = filePath)
    /\ isAbsolute (ensureAbsolutePath h filePath) = true
    /\ ensureAbsolutePath h (ensureAbsolutePath h filePath)
       = ensureAbsolutePath h filePath.
Proof.
  intros h filePath J Hh Ho.
  assert (A : isAbsolute (ensureAbsolutePath h filePath) = true).
  { unfold ensureAbsolutePath.
    destruct (isAbsolute filePath) eqn:Af; [exact Af|].
    destruct (startsWith filePath "~/"); [apply J, Hh|].
    apply J. unfold outputDirAnchored in Ho.
    destruct (envValue (IOS_SIMULATOR_MCP_DEFAULT_OUTPUT_DIR h)) as [d|];
      [|apply J, Hh].
    unfold expandTilde. destruct (startsWith d "~/"); [apply J, Hh|].
    rewrite orb_false_r in Ho. exact Ho. }
  split; [|split; [exact A|]].
  - intros Af. unfold ensureAbsolutePath. rewrite Af. reflexivity.
  - unfold ensureAbsolutePath at 1. rewrite A. reflexivity.
Qed.

Lemma ensureAbsolutePath_absolute_witness :
  isAbsolute (homedir sampleHost) = true
  /\ outputDirAnchored sampleHost = true
  /\ isAbsolute (ensureAbsolutePath sampleHost "shots/a.png") = true.
Proof.
  split; [reflexivity|]. split; [reflexivity|].
  assert (J : forall a b, isAbsolute a = true ->
                          isAbsolute (pathJoin sampleHost a b) = true).
  { intros a b H. destruct a as [|c a]; [discriminate|].
    change (pathJoin sampleHost (String c a) b)
      with (String c (a ++ "/" ++ b)%string).
    unfold isAbsolute, startsWith in *. cbn [prefix] in *.
    destruct (ascii_dec "/" c); [|discriminate].
    destruct (a ++ "/" ++ b)%string; reflexivity. }
  apply (proj1 (proj2 (ensureAbsolutePath_absolute sampleHost "shots/a.png"
                         J eq_refl eq_refl))).
Defined.

(** With a relative output directory the result is relative. *)
Example ensureAbsolutePath_relative_setting :
  ensureAbsolutePath
    (mkHost None (Some "out") "/Users/dev" (fun a b => a ++ "/" ++ b)%string
       (fun p => p) (fun _ => true) (fun _ => None) (fun _ => ""%string))
    "a.png"
  = "out/a.png"%string.
Proof. reflexivity. Qed.

(* ===================================================================== *)
(** * Properties of ui_describe_all                                        *)
(* ===================================================================== *)

Example describeAll_sample_landscape :
  exists transformed,
    describeAll auto (JArr sampleTree) = Rewrite transformed
    /\ List.length transformed = 1%nat.
Proof. eexists. split; reflexivity. Qed.

Example describeAll_sample_portrait_setting :
  describeAll portrait (JArr sampleTree) = Verbatim.
Proof. reflexivity. Qed.

Lemma describeAll_root (setting : Orientation) (ps : Props)
    (rest : list JSValue) (fr : JSValue) (f : Frame) :
  getProp "frame" ps = Some fr ->
  asFrame fr = Some f ->
  describeAll setting (JArr (JObj ps :: rest))
  = if negb (width f =? 0) || negb (height f =? 0)
    then match setting with
         | portrait => Verbatim
         | _ =>
             match getEffectiveOrientation setting (width f) (height f) with
             | portrait => Verbatim
             | o =>
                 match transformElementTree (JObj ps :: rest) o
                         (width f) (height f) with
                 | Some transformed => Rewrite transformed
                 | None => Incomplete
                 end
             end
         end
    else Verbatim.
Proof.
  intros G A. unfold describeAll.
  cbn [elementZero optionalFrame member]. rewrite G.
  destruct (asFrame_inv fr f A) as [fps [-> [Ew Eh]]].
  cbn [truthy member truthyOpt andb]. rewrite Ew, Eh. cbn [truthyOpt truthy].
  reflexivity.
Qed.

(** X22. For a snapshot whose first element carries a frame, the answer
    of ui_describe_all is idb's output as it is exactly when that frame is
    0x0 or the effective orientation, resolved from the session's setting
    and the frame's dimensions, is portrait. *)
Theorem describeAll_verbatim_iff :
  forall (setting : Orientation) (ps : Props) (rest : list JSValue)
         (fr : JSValue) (f : Frame),
    getProp "frame" ps = Some fr ->
    asFrame fr = Some f ->
    (describeAll setting (JArr (JObj ps :: rest)) = Verbatim
     <-> (width f = 0 /\ height f = 0)
         \/ getEffectiveOrientation setting (width f) (height f) = portrait).
Proof.
  intros setting ps rest fr f G A.
  rewrite (describeAll_root setting ps rest fr f G A).
  destruct (negb (width f =? 0) || negb (height f =? 0)) eqn:L.
  - assert (NZ : ~ (width f = 0 /\ height f = 0)).
    { intros [W0 H0]. rewrite W0, H0 in L. discriminate. }
    destruct setting; cbn [getEffectiveOrientation].
    + destruct (height f <? width f).
      * destruct (transformElementTree _ _ _ _);
          (split; [discriminate | intros [Z0 | ?]; [contradiction | discriminate]]).
      * split; [right; reflexivity | reflexivity].
    + split; [right; reflexivity | reflexivity].
    + destruct (transformElementTree _ _ _ _);
        (split; [discriminate | intros [Z0 | ?]; [contradiction | discriminate]]).
    + destruct (transformElementTree _ _ _ _);
        (split; [discriminate | intros [Z0 | ?]; [contradiction | discriminate]]).
    + destruct (transformElementTree _ _ _ _);
        (split; [discriminate | intros [Z0 | ?]; [contradiction | discriminate]]).
  - apply orb_false_iff in L. destruct L as [W0 H0].
    apply negb_false_iff, Z.eqb_eq in W0. apply negb_false_iff, Z.eqb_eq in H0.
    split; [left; split; assumption | reflexivity].
Qed.

Lemma describeAll_verbatim_iff_witness :
  getProp "frame" [("frame", frameObject (mkFrame 0 0 390 844))]
  = Some (frameObject (mkFrame 0 0 390 844))
  /\ asFrame (frameObject (mkFrame 0 0 390 844)) = Some (mkFrame 0 0 390 844)
  /\ describeAll auto
       (JArr [JObj [("frame", frameObject (mkFrame 0 0 390 844))]])
     = Verbatim.
Proof.
  split; [reflexivity|]. split; [reflexivity|].
  apply (proj2 (describeAll_verbatim_iff auto
                  [("frame", frameObject (mkFrame 0 0 390 844))] []
                  (frameObject (mkFrame 0 0 390 844)) (mkFrame 0 0 390 844)
                  eq_refl eq_refl)).
  right. reflexivity.
Defined.



(** X24. ui_describe_all only reads: in every world and for every
    answer of idb it leaves the registry as it was, and it sends either
    nothing (no session, or a configured idb path that does not exist) or
    the one describe-all command for the udid of the session. *)
Theorem ui_describe_all_reads_only :
  forall (h : Host) (id : string) (w : World) (st : State),
    let r := ui_describe_all h id w st in
    managedSimulators (snd r) = managedSimulators st
    /\ (issued (snd r) = issued st
        \/ exists s p, mapGet id (managedSimulators st) = Some s
             /\ getIdbPath h = Return p
             /\ issued (snd r)
                = issued st ++ [mkCmd p (describeAllArgs (udid s))])
    /\ (mapGet id (managedSimulators st) = None ->
          r = (Some (mkResult true
                       (errorWithTroubleshooting
                          ("Error describing all of the ui: "
                           ++ noSessionMessage id)%string)), st)).
Proof.
  intros h id w st r. subst r.
  unfold ui_describe_all, describe_all_body, idb.
  unfold bind, getSim, run, throw, ret.
  destruct (mapGet id (managedSimulators st)) as [s|] eqn:G; cbv beta iota.
  - destruct (getIdbPath h) as [p|e] eqn:P; cbv beta iota.
    + destruct (w (issued st) (mkCmd p (describeAllArgs (udid s)))) as [out|e];
        cbv beta iota.
      * destruct (jsonParse h (stdout out)) as [elements|]; cbv beta iota.
        -- destruct (describeAll (orientation s) elements); cbv beta iota;
             cbn [fst snd managedSimulators issued];
             (split; [reflexivity|]; split; [|discriminate]);
             right; exists s, p; repeat split.
        -- cbn [fst snd managedSimulators issued].
           split; [reflexivity|]. split; [|discriminate].
           right. exists s, p. repeat split.
      * cbn [fst snd managedSimulators issued].
        split; [reflexivity|]. split; [|discriminate].
        right. exists s, p. repeat split.
    + cbn [fst snd]. split; [reflexivity|]. split; [left; reflexivity | discriminate].
  - cbn [fst snd]. split; [reflexivity|]. split; [left; reflexivity|].
    intros _. reflexivity.
Qed.

Lemma describeAll_portrait_setting (elements : JSValue) :
  elements <> JNull -> describeAll portrait elements = Verbatim.
Proof.
  intros N. unfold describeAll.
  destruct elements; try contradiction;
    destruct (optionalFrame _); try reflexivity;
    destruct (truthy _ && _); reflexivity.
Qed.

(** X25. With the rotation of the session set to portrait,
    ui_describe_all hands back what idb printed, character for character,
    for every output that parses to something other than null: no frame
    is rewritten and the text is not serialized again. *)
Theorem ui_describe_all_portrait_verbatim :
  forall (h : Host) (id : string) (w : World) (st : State) (s : Sim)
         (p : string) (out : Output) (elements : JSValue),
    mapGet id (managedSimulators st) = Some s ->
    orientation s = portrait ->
    getIdbPath h = Return p ->
    w (issued st) (mkCmd p (describeAllArgs (udid s))) = Resolves out ->
    jsonParse h (stdout out) = Some elements ->
    elements <> JNull ->
    fst (ui_describe_all h id w st) = Some (mkResult false (stdout out)).
Proof.
  intros h id w st s p out elements G O P Hw J N.
  unfold ui_describe_all, describe_all_body, idb.
  unfold bind, getSim, throw, ret.
  rewrite G, P. cbv beta iota.
  rewrite (run_resolves w st _ out Hw). cbv beta iota.
  rewrite J, O, (describeAll_portrait_setting elements N). reflexivity.
Qed.

Lemma ui_describe_all_portrait_verbatim_witness :
  mapGet "s1" (managedSimulators onePortrait)
  = Some (mkSim sampleUdid "s1_iphone" true portrait)
  /\ getIdbPath sampleHost = Return "/Users/dev/bin/idb"%string
  /\ fst (ui_describe_all sampleHost "s1" describeWorld onePortrait)
     = Some (mkResult false sampleTreeText).
Proof.
  split; [reflexivity|]. split; [reflexivity|].
  apply (ui_describe_all_portrait_verbatim sampleHost "s1" describeWorld
           onePortrait (mkSim sampleUdid "s1_iphone" true portrait)
           "/Users/dev/bin/idb" (mkOutput sampleTreeText NotJson)
           (JArr sampleTree) eq_refl eq_refl eq_refl eq_refl eq_refl).
  discriminate.
Defined.
